(** * BigQuery viewer backend (server.js): request handlers over the
      in-memory connection store

    The server keeps two module-level variables, [bigQueryClient] and
    [bigQueryCredentials], and registers seven Express route handlers that
    read and assign them.  Five handlers are [async] and suspend at an
    [await] on a call into the BigQuery SDK.

    The embedding follows the source:
    - JavaScript values are an inductive type with the language's
      truthiness, [typeof], [ToString] and [parseInt];
    - a handler is a resumption: it runs synchronously on the store until it
      either sends its response or suspends on an SDK call, carrying the
      continuation that is resumed with the call's outcome and with the
      store as it is at that later moment;
    - the SDK is an external collaborator: its answers are supplied by an
      oracle, and every call made is recorded. *)

From Stdlib Require Import ZArith List String Ascii Bool Lia.
From Stdlib Require Import DecimalString DecimalPos DecimalFacts.
Import ListNotations.
Local Open Scope string_scope.
Local Open Scope Z_scope.
Set Warnings "-register-all".

(** ** JavaScript values *)

Module Js.

(** Numbers the handlers compute with are results of [parseInt]: [NaN], the
    negative zero, or an integer.  The model is exact for integers below
    2^53 in magnitude, which a double holds exactly and which are printed
    digit by digit.  Beyond that the language rounds to the nearest double,
    overflows to [Infinity] and, from 10^21 on, prints in exponent
    notation; none of this is modelled, and none of it changes whether a
    number is zero or [NaN].  Statements about the value or the printed
    text of a number carry the bound as a hypothesis ([safe_integer]). *)
Inductive JsNum : Type :=
| NaN
| NegZero
| Int (z : Z).

(** Objects list their own enumerable string-keyed properties in the order
    [Object.keys] reports them.  Strings are sequences of code units below
    256. *)
Inductive JsVal : Type :=
| JUndefined
| JNull
| JBool (b : bool)
| JNum (n : JsNum)
| JStr (s : string)
| JArr (elems : list JsVal)
| JObj (props : list (string * JsVal)).

Definition Obj : Type := list (string * JsVal).

(** Own-property lookup; [None] when the object has no such property. *)
Fixpoint lookup (o : Obj) (k : string) : option JsVal :=
  match o with
  | [] => None
  | (k', v) :: rest => if String.eqb k' k then Some v else lookup rest k
  end.

(** [o.k] (and the destructuring [const { k } = o]): [undefined] when the
    property is absent. *)
Definition get (o : Obj) (k : string) : JsVal :=
  match lookup o k with
  | Some v => v
  | None => JUndefined
  end.

(** [Object.keys(o)] *)
Definition keys (o : Obj) : list string := map fst o.

Definition truthy_num (n : JsNum) : bool :=
  match n with
  | NaN => false
  | NegZero => false
  | Int z => negb (z =? 0)
  end.

(** ToBoolean, as used by [!x], [x || y] and [if (x)]. *)
Definition truthy (v : JsVal) : bool :=
  match v with
  | JUndefined => false
  | JNull => false
  | JBool b => b
  | JNum n => truthy_num n
  | JStr s => negb (String.eqb s "")
  | JArr _ => true
  | JObj _ => true
  end.

(** [x || y] *)
Definition or_else (x y : JsVal) : JsVal := if truthy x then x else y.

(** [typeof v] *)
Definition typeof (v : JsVal) : string :=
  match v with
  | JUndefined => "undefined"
  | JNull => "object"
  | JBool _ => "boolean"
  | JNum _ => "number"
  | JStr _ => "string"
  | JArr _ => "object"
  | JObj _ => "object"
  end.

Definition num_to_string (n : JsNum) : string :=
  match n with
  | NaN => "NaN"
  | NegZero => "0"
  | Int z => NilZero.string_of_int (Z.to_int z)
  end.

(** ToString, as applied by template literals and by [parseInt] to its
    argument.  An array joins its elements with commas, [null] and
    [undefined] elements giving the empty string.  An object that has a
    property named [toString] of its own is outside the model: a value read
    from JSON or from a query string is never callable, and the language
    throws a TypeError on such an object instead of returning a text.
    Statements about conversions name the values they cover
    ([parameter_text], or an object without that property). *)
Fixpoint ToString (v : JsVal) : string :=
  match v with
  | JUndefined => "undefined"
  | JNull => "null"
  | JBool true => "true"
  | JBool false => "false"
  | JNum n => num_to_string n
  | JStr s => s
  | JArr elems =>
      (fix join (l : list JsVal) : string :=
         match l with
         | [] => ""
         | x :: rest =>
             let sx := match x with
                       | JUndefined | JNull => ""
                       | _ => ToString x
                       end in
             match rest with
             | [] => sx
             | _ :: _ => sx ++ "," ++ join rest
             end
         end) elems
  | JObj _ => "[object Object]"
  end.

(** *** [parseInt(string)] with no radix argument *)

Definition is_white_space (c : ascii) : bool :=
  let n := N.of_nat (nat_of_ascii c) in
  (N.eqb n 9 || N.eqb n 10 || N.eqb n 11 || N.eqb n 12 || N.eqb n 13
   || N.eqb n 32 || N.eqb n 160)%bool.

Fixpoint trim_start (s : string) : string :=
  match s with
  | String c rest => if is_white_space c then trim_start rest else s
  | EmptyString => s
  end.

(** Value of a character as a digit: 0-9, then a-z and A-Z for 10-35. *)
Definition digit_val (c : ascii) : option Z :=
  let n := Z.of_nat (nat_of_ascii c) in
  if (48 <=? n) && (n <=? 57) then Some (n - 48)
  else if (97 <=? n) && (n <=? 122) then Some (n - 87)
  else if (65 <=? n) && (n <=? 90) then Some (n - 55)
  else None.

Definition radix_digit (R : Z) (c : ascii) : option Z :=
  match digit_val c with
  | Some d => if d <? R then Some d else None
  | None => None
  end.

(** The digits of the longest prefix made of radix-[R] digits. *)
Fixpoint digits_prefix (R : Z) (s : string) : list Z :=
  match s with
  | String c rest =>
      match radix_digit R c with
      | Some d => d :: digits_prefix R rest
      | None => []
      end
  | EmptyString => []
  end.

Definition digits_value (R : Z) (ds : list Z) : Z :=
  fold_left (fun acc d => acc * R + d) ds 0.

(** A leading sign is removed and remembered. *)
Definition split_sign (s : string) : Z * string :=
  match s with
  | String "-" rest => (-1, rest)
  | String "+" rest => (1, rest)
  | _ => (1, s)
  end.

(** A leading [0x] or [0X] is removed and selects radix 16. *)
Definition split_radix (s : string) : Z * string :=
  match s with
  | String "0" (String "x" rest) => (16, rest)
  | String "0" (String "X" rest) => (16, rest)
  | _ => (10, s)
  end.

Definition parseInt_string (input : string) : JsNum :=
  let (sign, s1) := split_sign (trim_start input) in
  let (R, s2) := split_radix s1 in
  match digits_prefix R s2 with
  | [] => NaN
  | ds =>
      let m := digits_value R ds in
      if m =? 0 then (if sign =? -1 then NegZero else Int 0)
      else Int (sign * m)
  end.

Definition parseInt (v : JsVal) : JsNum := parseInt_string (ToString v).

(** [n || d] on numbers *)
Definition num_or (n d : JsNum) : JsNum := if truthy_num n then n else d.

End Js.
Export Js.

(** ** The connection store and the BigQuery SDK *)

Module Store.

(** The object built by [new BigQuery({ projectId, credentials })]; the
    constructor only records its options. *)
Record Client : Type := new_BigQuery {
  cfg_projectId : JsVal;
  cfg_client_email : JsVal;
  cfg_private_key : string
}.

(** The object literal [{ projectId, clientEmail }] kept after a connect. *)
Record Credentials : Type := mkCredentials {
  projectId : JsVal;
  clientEmail : JsVal
}.

(** The two module-level variables; [None] is [null]. *)
Record Store : Type := mkStore {
  bigQueryClient : option Client;
  bigQueryCredentials : option Credentials
}.

Definition initial : Store :=
  {| bigQueryClient := None; bigQueryCredentials := None |}.

Definition set_client (c : option Client) (s : Store) : Store :=
  {| bigQueryClient := c; bigQueryCredentials := bigQueryCredentials s |}.

Definition set_credentials (c : option Credentials) (s : Store) : Store :=
  {| bigQueryClient := bigQueryClient s; bigQueryCredentials := c |}.

End Store.
Export Store.

Module Sdk.

(** A dataset or table object of the SDK, as far as the handlers read it. *)
Record Entity : Type := mkEntity {
  id : JsVal;
  metadata : JsVal
}.

(** The asynchronous SDK calls the handlers await, indexed by the type of
    the first element of the array the returned promise resolves to. *)
Inductive Call : Type -> Type :=
| getDatasets (c : Client) : Call (list Entity)
| getTables (c : Client) (datasetId : string) : Call (list Entity)
| getMetadata (c : Client) (datasetId tableId : string) : Call Obj
| query (c : Client) (q : JsVal) : Call (list Obj).

(** A promise settles: it resolves, or rejects with an error whose
    [message] is given. *)
Inductive Outcome (A : Type) : Type :=
| Resolved (a : A)
| Rejected (message : string).
Arguments Resolved {A} a.
Arguments Rejected {A} message.

Definition Oracle : Type := forall A, Call A -> Outcome A.

Definition AnyCall : Type := { A : Type & Call A }.

End Sdk.
Export Sdk.

(** ** Handlers as resumptions *)

Record Response : Type := mkResponse {
  status : Z;
  body : JsVal
}.

(** [res.json(b)] and [res.status(n).json(b)] *)
Definition json (b : Obj) : Response := {| status := 200; body := JObj b |}.
Definition status_json (n : Z) (b : Obj) : Response :=
  {| status := n; body := JObj b |}.

(** A handler has either sent its response, leaving the store as given, or
    is suspended at an [await]: the store as it leaves it, the pending call,
    and the rest of the handler, which receives the outcome of the call and
    the store as other handlers have left it in the meantime. *)
Inductive Handler : Type :=
| Respond (r : Response) (s : Store)
| Await {A : Type} (c : Call A) (s : Store)
        (k : Outcome A -> Store -> Handler).

(** [x?.k] on a value: [undefined] when [x] is [null] or [undefined]. *)
Definition opt_chain (v : JsVal) (k : string) : JsVal :=
  match v with
  | JObj o => get o k
  | _ => JUndefined
  end.

(** The call [privateKey.replace] with the pattern backslash-n, global, and
    a line feed as replacement: every backslash (code 92) followed by [n]
    becomes a line feed (code 10). *)
Fixpoint replace_escaped_newlines (s : string) : string :=
  match s with
  | String c rest =>
      if Ascii.eqb c "092" then
        match rest with
        | String "n" rest' => String "010" (replace_escaped_newlines rest')
        | _ => String c (replace_escaped_newlines rest)
        end
      else String c (replace_escaped_newlines rest)
  | EmptyString => EmptyString
  end.

Definition not_connected : Response :=
  status_json 401 [("error", JStr "Not connected to BigQuery")].

Definition upstream_error (message : string) : Response :=
  status_json 500 [("error", JStr message)].

(** ** The route handlers *)

Module Handlers.

(** [GET /api/bigquery/status] *)
Definition status_body (s : Store) : Obj :=
  [("connected",
    JBool (match bigQueryClient s with Some _ => true | None => false end));
   ("projectId",
    or_else (match bigQueryCredentials s with
             | Some creds => projectId creds
             | None => JUndefined
             end) JNull)].

Definition get_status (s : Store) : Handler :=
  Respond (json (status_body s)) s.

(** [POST /api/bigquery/connect], from the [await] on: the rest of the [try]
    block when the verification call resolves, the [catch] block when it
    rejects.  [s] is the store at that moment. *)
Definition connect_resume (projectId clientEmail : JsVal)
    (outcome : Outcome (list Entity)) (s : Store) : Handler :=
  match outcome with
  | Resolved _ =>
      Respond
        (json [("success", JBool true);
               ("message", JStr "Connected to BigQuery")])
        (set_credentials (Some (mkCredentials projectId clientEmail)) s)
  | Rejected message =>
      Respond
        (status_json 401
           [("error", JStr ("Authentication failed: " ++ message))])
        initial
  end.

(** [POST /api/bigquery/connect].  A [privateKey] that is truthy but not a
    string has no [replace] method: the call throws inside the [try] and
    the [catch] block runs. *)
Definition post_connect (req_body : Obj) (s : Store) : Handler :=
  let projectId := get req_body "projectId" in
  let clientEmail := get req_body "clientEmail" in
  let privateKey := get req_body "privateKey" in
  if negb (truthy projectId) || negb (truthy clientEmail)
     || negb (truthy privateKey)
  then Respond
         (status_json 400 [("error", JStr "Missing required credentials")]) s
  else
    match privateKey with
    | JStr key =>
        let formattedKey := replace_escaped_newlines key in
        let client := new_BigQuery projectId clientEmail formattedKey in
        Await (getDatasets client) (set_client (Some client) s)
              (connect_resume projectId clientEmail)
    | _ =>
        Respond
          (status_json 401
             [("error",
               JStr ("Authentication failed: "
                     ++ "privateKey.replace is not a function"))])
          initial
    end.

(** [POST /api/bigquery/disconnect] *)
Definition post_disconnect (s : Store) : Handler :=
  Respond (json [("success", JBool true)])
          (set_credentials None (set_client None s)).

(** [GET /api/bigquery/datasets] *)
Definition get_datasets (s : Store) : Handler :=
  match bigQueryClient s with
  | None => Respond not_connected s
  | Some client =>
      Await (getDatasets client) s
        (fun outcome s' =>
           match outcome with
           | Resolved datasets =>
               Respond
                 (json [("datasets",
                         JArr (map (fun ds =>
                                      JObj [("id", id ds);
                                            ("location",
                                             opt_chain (metadata ds) "location")])
                                   datasets))])
                 s'
           | Rejected message => Respond (upstream_error message) s'
           end)
  end.

(** [GET /api/bigquery/tables/:datasetId] *)
Definition get_tables (datasetId : string) (s : Store) : Handler :=
  match bigQueryClient s with
  | None => Respond not_connected s
  | Some client =>
      Await (getTables client datasetId) s
        (fun outcome s' =>
           match outcome with
           | Resolved tables =>
               Respond
                 (json [("tables",
                         JArr (map (fun t =>
                                      JObj [("id", id t);
                                            ("type",
                                             opt_chain (metadata t) "type")])
                                   tables))])
                 s'
           | Rejected message => Respond (upstream_error message) s'
           end)
  end.

(** [parseInt(req.query.limit) || 100] and [parseInt(req.query.offset) || 0],
    for parameters [ToString] converts (see there); the two lines stand
    before the [try] block of the handler. *)
Definition page_limit (req_query : Obj) : JsNum :=
  num_or (parseInt (get req_query "limit")) (Int 100).

Definition page_offset (req_query : Obj) : JsNum :=
  num_or (parseInt (get req_query "offset")) (Int 0).

(** The template literal of the page query. *)
Definition page_sql (project : JsVal) (datasetId tableId : string)
    (limit offset : JsNum) : string :=
  "SELECT * FROM `" ++ ToString project ++ "." ++ datasetId ++ "." ++ tableId
  ++ "` LIMIT " ++ num_to_string limit ++ " OFFSET " ++ num_to_string offset.

(** [GET /api/bigquery/data/:datasetId/:tableId].  After the first [await]
    the handler reads both variables again; reading a property of [null]
    throws a TypeError, which the [catch] block reports. *)
Definition get_data (datasetId tableId : string) (req_query : Obj)
    (s : Store) : Handler :=
  match bigQueryClient s with
  | None => Respond not_connected s
  | Some client =>
      let limit := page_limit req_query in
      let offset := page_offset req_query in
      Await (getMetadata client datasetId tableId) s
        (fun outcome s' =>
           match outcome with
           | Resolved metadata =>
               let schema :=
                 or_else (opt_chain (get metadata "schema") "fields")
                         (JArr []) in
               match bigQueryCredentials s' with
               | None =>
                   Respond
                     (upstream_error
                        "Cannot read properties of null (reading 'projectId')")
                     s'
               | Some creds =>
                   let sql := page_sql (projectId creds) datasetId tableId
                                       limit offset in
                   match bigQueryClient s' with
                   | None =>
                       Respond
                         (upstream_error
                            "Cannot read properties of null (reading 'query')")
                         s'
                   | Some client' =>
                       Await (query client' (JStr sql)) s'
                         (fun outcome' s'' =>
                            match outcome' with
                            | Resolved rows =>
                                Respond
                                  (json [("rows", JArr (map JObj rows));
                                         ("schema", schema);
                                         ("total", get metadata "numRows")])
                                  s''
                            | Rejected message =>
                                Respond (upstream_error message) s''
                            end)
                   end
               end
           | Rejected message => Respond (upstream_error message) s'
           end)
  end.

(** The schema of an ad hoc query result:
    [rows.length > 0 ? Object.keys(rows[0]).map(name =>
       ({ name, type: typeof rows[0][name] })) : []] *)
Definition infer_schema (rows : list Obj) : list JsVal :=
  match rows with
  | row0 :: _ =>
      map (fun name =>
             JObj [("name", JStr name);
                   ("type", JStr (typeof (get row0 name)))])
          (keys row0)
  | [] => []
  end.

(** [POST /api/bigquery/query], from the [await] on. *)
Definition query_resume (outcome : Outcome (list Obj)) (s : Store)
  : Handler :=
  match outcome with
  | Resolved rows =>
      Respond
        (json [("rows", JArr (map JObj rows));
               ("schema", JArr (infer_schema rows))])
        s
  | Rejected message => Respond (upstream_error message) s
  end.

(** [POST /api/bigquery/query] *)
Definition post_query (req_body : Obj) (s : Store) : Handler :=
  match bigQueryClient s with
  | None => Respond not_connected s
  | Some client =>
      let q := get req_body "query" in
      if negb (truthy q)
      then Respond (status_json 400 [("error", JStr "Query is required")]) s
      else Await (query client q) s query_resume
  end.

(** A request, as routed: the route with its path parameters and the parsed
    query string or JSON body it reads.  [express.json()] and the query
    parser hand the handlers objects in [req.body] and [req.query]. *)
Inductive Request : Type :=
| GET_status
| POST_connect (req_body : Obj)
| POST_disconnect
| GET_datasets
| GET_tables (datasetId : string)
| GET_data (datasetId tableId : string) (req_query : Obj)
| POST_query (req_body : Obj).

Definition handle (r : Request) (s : Store) : Handler :=
  match r with
  | GET_status => get_status s
  | POST_connect b => post_connect b s
  | POST_disconnect => post_disconnect s
  | GET_datasets => get_datasets s
  | GET_tables d => get_tables d s
  | GET_data d t q => get_data d t q s
  | POST_query b => post_query b s
  end.

(** The requests that need a connection. *)
Definition requires_connection (r : Request) : bool :=
  match r with
  | GET_datasets | GET_tables _ | GET_data _ _ _ | POST_query _ => true
  | _ => false
  end.

End Handlers.
Export Handlers.

(** ** Executions *)

Module Exec.

(** One handler run from start to finish with no other handler running
    during its awaits: each pending call is answered by the oracle and the
    continuation resumes on the store the handler itself left.  The result
    is the response, the final store and the SDK calls made, in order. *)
Fixpoint run (oracle : Oracle) (h : Handler)
  : Response * Store * list AnyCall :=
  match h with
  | Respond r s => (r, s, [])
  | Await c s k =>
      let '(r, s', calls) := run oracle (k (oracle _ c) s) in
      (r, s', existT _ _ c :: calls)
  end.

Definition response_of (x : Response * Store * list AnyCall) : Response :=
  fst (fst x).
Definition store_of (x : Response * Store * list AnyCall) : Store :=
  snd (fst x).
Definition calls_of (x : Response * Store * list AnyCall) : list AnyCall :=
  snd x.

(** The store after serving a request to completion. *)
Definition serve (oracle : Oracle) (r : Request) (s : Store) : Store :=
  store_of (run oracle (handle r s)).

(** Stores reachable from start-up by serving requests one after another,
    each to completion, whatever the SDK answers. *)
Inductive reachable : Store -> Prop :=
| reachable_initial : reachable initial
| reachable_serve oracle r s :
    reachable s -> reachable (serve oracle r s).

(** Both variables are set, or both are [null]. *)
Definition paired (s : Store) : Prop :=
  (bigQueryClient s = None /\ bigQueryCredentials s = None)
  \/ (bigQueryClient s <> None /\ bigQueryCredentials s <> None).

Definition pairedb (s : Store) : bool :=
  match bigQueryClient s, bigQueryCredentials s with
  | None, None => true
  | Some _, Some _ => true
  | _, _ => false
  end.

(** *** The event loop

    Requests arrive while earlier handlers are suspended.  The server is the
    store together with the suspended handlers; an event either starts the
    handler of an arriving request or settles the call of a suspended one,
    resuming it on the current store. *)
Record Suspended : Type := mkSuspended {
  result_type : Type;
  pending_call : Call result_type;
  continuation : Outcome result_type -> Store -> Handler
}.

Record Server : Type := mkServer {
  store : Store;
  suspended : list Suspended
}.

Definition boot : Server := {| store := initial; suspended := [] |}.

Inductive Event : Type :=
| Arrive (r : Request)
| Settle (i : nat) (oracle : Oracle).

(** Account for a handler that has run up to its response or next await. *)
Definition settle_in (others : list Suspended) (h : Handler)
  : Server * list Response :=
  match h with
  | Respond r s => ({| store := s; suspended := others |}, [r])
  | Await c s k =>
      ({| store := s; suspended := (others ++ [mkSuspended _ c k])%list |}, [])
  end.

Fixpoint remove_nth {A} (i : nat) (l : list A) : list A :=
  match l, i with
  | [], _ => []
  | _ :: rest, O => rest
  | x :: rest, S j => x :: remove_nth j rest
  end.

Definition step (sv : Server) (e : Event) : Server * list Response :=
  match e with
  | Arrive r => settle_in (suspended sv) (handle r (store sv))
  | Settle i oracle =>
      match nth_error (suspended sv) i with
      | Some p =>
          settle_in (remove_nth i (suspended sv))
            (continuation p (oracle _ (pending_call p)) (store sv))
      | None => (sv, [])
      end
  end.

(** Run a sequence of events; the responses sent, in order. *)
Fixpoint steps (sv : Server) (es : list Event) : Server * list Response :=
  match es with
  | [] => (sv, [])
  | e :: rest =>
      let (sv1, out1) := step sv e in
      let (sv2, out2) := steps sv1 rest in
      (sv2, (out1 ++ out2)%list)
  end.

End Exec.
Export Exec.

(** ** Sample SDK behaviours and requests *)

Module Fixtures.

(** Every call rejects with the given message. *)
Definition reject_all (message : string) : Oracle :=
  fun _ _ => Rejected message.

(** Every call resolves, with the given results. *)
Definition resolve_all (datasets tables : list Entity) (meta : Obj)
    (rows : list Obj) : Oracle :=
  fun A c =>
    match c in Call A return Outcome A with
    | getDatasets _ => Resolved datasets
    | getTables _ _ => Resolved tables
    | getMetadata _ _ _ => Resolved meta
    | query _ _ => Resolved rows
    end.

Definition proj1_body : Obj :=
  [("projectId", JStr "proj1");
   ("clientEmail", JStr "svc@proj1.example");
   ("privateKey", JStr "-----BEGIN KEY-----\nabc\n-----END KEY-----")].

Definition proj1_client : Client :=
  new_BigQuery (JStr "proj1") (JStr "svc@proj1.example")
    (replace_escaped_newlines "-----BEGIN KEY-----\nabc\n-----END KEY-----").

Definition proj1_connected : Store :=
  {| bigQueryClient := Some proj1_client;
     bigQueryCredentials :=
       Some (mkCredentials (JStr "proj1") (JStr "svc@proj1.example")) |}.

End Fixtures.
Export Fixtures.

(** ** Words of the specification *)

Module SpecWords.





End SpecWords.
Export SpecWords.

(** ** Predicates used to state what the handlers do and never do *)

Module Observe.

Definition starts_with_n (s : string) : bool :=
  match s with
  | String "n" _ => true
  | _ => false
  end.

Definition drop_first (s : string) : string :=
  match s with
  | String _ rest => rest
  | EmptyString => EmptyString
  end.

(** The text contains a backslash immediately followed by [n]. *)
Fixpoint has_escaped_newline (s : string) : bool :=
  match s with
  | String c rest =>
      (Ascii.eqb c "092" && starts_with_n rest) || has_escaped_newline rest
  | EmptyString => false
  end.

(** An integer a double holds exactly and prints digit by digit. *)
Definition safe_integer (z : Z) : Prop := Z.abs z < 2 ^ 53.

(** A query parameter that is absent or was given once, as a text. *)
Definition parameter_text (v : JsVal) : Prop :=
  v = JUndefined \/ exists text, v = JStr text.




(** Every response the handler can come to send satisfies [P], whatever the
    SDK answers and whatever the store holds each time it is resumed. *)
Inductive answers (P : Response -> Prop) : Handler -> Prop :=
| answers_respond r s : P r -> answers P (Respond r s)
| answers_await A (c : Call A) s k :
    (forall outcome s', answers P (k outcome s')) ->
    answers P (Await c s k).

(** Every synchronous stretch of the handler, started on a store [s0],
    leaves a store related to [s0] by [R]; the first stretch starts on the
    given store, the later ones on whatever store they are resumed on. *)
Inductive writes (R : Store -> Store -> Prop) (s0 : Store)
  : Handler -> Prop :=
| writes_respond r s : R s0 s -> writes R s0 (Respond r s)
| writes_await A (c : Call A) s k :
    R s0 s ->
    (forall outcome s', writes R s' (k outcome s')) ->
    writes R s0 (Await c s k).

(** The same for the stretches after the first await only. *)
Definition resumes (R : Store -> Store -> Prop) (h : Handler) : Prop :=
  match h with
  | Respond _ _ => True
  | Await _ _ k => forall outcome s', writes R s' (k outcome s')
  end.

(** A stretch that does not assign a client: if the variable was [null]
    it still is. *)
Definition keeps_client_null (s s' : Store) : Prop :=
  bigQueryClient s = None -> bigQueryClient s' = None.

(** A response is a success without an [error] field, or one of the three
    error statuses with a body that is exactly [{ error: <text> }]. *)
Definition success_or_error (r : Response) : Prop :=
  (status r = 200
   /\ exists o, body r = JObj o /\ lookup o "error" = None)
  \/ ((status r = 400 \/ status r = 401 \/ status r = 500)
      /\ exists message, body r = JObj [("error", JStr message)]).

(** Every suspended handler of the server, resumed with any outcome on any
    store [s], gives a handler that satisfies [Q s]. *)
Definition suspended_all (Q : Store -> Handler -> Prop) (sv : Server) : Prop :=
  Forall (fun p => forall outcome s, Q s (continuation p outcome s))
         (suspended sv).

(** The requests whose handlers contain no assignment to the store. *)
Definition reads_only (r : Request) : bool :=
  match r with
  | POST_connect _ | POST_disconnect => false
  | _ => true
  end.

Definition is_connect_arrival (e : Event) : bool :=
  match e with
  | Arrive (POST_connect _) => true
  | _ => false
  end.

(** The falsy values a JSON body can carry. *)
Definition falsy_value (v : JsVal) : Prop :=
  v = JUndefined \/ v = JNull \/ v = JBool false \/ v = JStr ""
  \/ v = JNum (Int 0) \/ v = JNum NegZero \/ v = JNum NaN.

(** The client and the credentials in the store describe the same
    connection: same project and account, both truthy, and a normalised
    key; or both variables are [null]. *)
Definition session_consistent (s : Store) : Prop :=
  match bigQueryClient s, bigQueryCredentials s with
  | Some client, Some creds =>
      cfg_projectId client = projectId creds
      /\ cfg_client_email client = clientEmail creds
      /\ truthy (projectId creds) = true
      /\ truthy (clientEmail creds) = true
      /\ has_escaped_newline (cfg_private_key client) = false
  | None, None => True
  | _, _ => False
  end.

(** The type names [typeof] can produce for a JSON-like value. *)
Definition type_names : list string :=
  ["undefined"; "object"; "boolean"; "number"; "string"].

End Observe.
Export Observe.

(** * Properties *)

(** ** Sanity checks of the embedding on concrete inputs *)

Example parseInt_samples :
  map parseInt_string
      ["42"; "  -7px"; "0x1F"; "abc"; ""; "-0"; "12abc"; "0xg"; "+5"; "1e3"]
  = [Int 42; Int (-7); Int 31; NaN; NaN; NegZero; Int 12; NaN; Int 5; Int 1].
Proof. reflexivity. Qed.

Example ToString_samples :
  map ToString
      [JArr [JStr "5"; JNull; JStr "6"]; JObj []; JUndefined; JNum (Int (-12))]
  = ["5,,6"; "[object Object]"; "undefined"; "-12"].
Proof. reflexivity. Qed.

Example replace_escaped_newlines_sample :
  replace_escaped_newlines "a\nb\\nc"
  = String "a" (String "010" (String "b" (String "092"
      (String "010" (String "c" EmptyString))))).
Proof. reflexivity. Qed.

(** ** Truthiness of request fields *)

Lemma get_absent (o : Obj) (k : string) :
  lookup o k = None -> get o k = JUndefined.
Proof. unfold get. intros ->. reflexivity. Qed.

Lemma absent_is_falsy (o : Obj) (k : string) :
  lookup o k = None -> truthy (get o k) = false.
Proof. intros H. rewrite (get_absent _ _ H). reflexivity. Qed.

(** The guard of the connect handler rejects a body in which one of the
    three fields is falsy. *)
Lemma connect_guard_rejects (b : Obj) (s : Store) :
  truthy (get b "projectId") = false
  \/ truthy (get b "clientEmail") = false
  \/ truthy (get b "privateKey") = false ->
  post_connect b s
  = Respond (status_json 400 [("error", JStr "Missing required credentials")])
            s.
Proof.
  intros H. unfold post_connect.
  destruct H as [-> | [-> | ->]]; cbn [negb orb];
    rewrite ?orb_true_r; reflexivity.
Qed.

(** ** Requests refused without touching the store or the SDK *)

(** C3: a connect request whose body lacks [projectId], [clientEmail] or
    [privateKey] is answered 400 at once: the handler makes no SDK call and
    leaves both store variables as they were. *)
Theorem connect_missing_field_400 (b : Obj) (s : Store) (k : string) :
  In k ["projectId"; "clientEmail"; "privateKey"] ->
  lookup b k = None ->
  post_connect b s
  = Respond (status_json 400 [("error", JStr "Missing required credentials")])
            s
  /\ forall oracle,
       run oracle (handle (POST_connect b) s)
       = (status_json 400 [("error", JStr "Missing required credentials")],
          s, []).
Proof.
  intros Hk Habs.
  assert (Hguard : post_connect b s
                   = Respond (status_json 400
                                [("error", JStr "Missing required credentials")])
                             s).
  { apply connect_guard_rejects.
    cbn [In] in Hk. destruct Hk as [<- | [<- | [<- | []]]];
      auto using absent_is_falsy. }
  split; [exact Hguard |].
  intros oracle. cbn [handle]. rewrite Hguard. reflexivity.
Qed.

Lemma connect_missing_field_400_witness :
  post_connect [("projectId", JStr "proj1"); ("clientEmail", JStr "a@b.c")]
               initial
  = Respond (status_json 400 [("error", JStr "Missing required credentials")])
            initial.
Proof.
  apply (connect_missing_field_400
           [("projectId", JStr "proj1"); ("clientEmail", JStr "a@b.c")]
           initial "privateKey").
  - cbn. auto.
  - reflexivity.
Defined.

Lemma no_client_not_connected (s : Store) :
  bigQueryClient s = None ->
  get_datasets s = Respond not_connected s
  /\ (forall d, get_tables d s = Respond not_connected s)
  /\ (forall d t q, get_data d t q s = Respond not_connected s)
  /\ (forall b, post_query b s = Respond not_connected s).
Proof.
  intros Hnone.
  unfold get_datasets, get_tables, get_data, post_query.
  rewrite Hnone. repeat split.
Qed.

(** C4: with no client handle in the store, listing datasets, listing
    tables, fetching a table page and running a query each answer 401
    immediately: the handler never suspends on an SDK call, so none is
    made, and the store is the one it found. *)
Theorem disconnected_requests_401 (s : Store) :
  bigQueryClient s = None ->
  status not_connected = 401
  /\ get_datasets s = Respond not_connected s
  /\ (forall d, get_tables d s = Respond not_connected s)
  /\ (forall d t q, get_data d t q s = Respond not_connected s)
  /\ (forall b, post_query b s = Respond not_connected s)
  /\ (forall oracle r, requires_connection r = true ->
        run oracle (handle r s) = (not_connected, s, [])).
Proof.
  intros Hnone.
  destruct (no_client_not_connected s Hnone) as (Hd & Ht & Hp & Hq).
  repeat split; auto.
  intros oracle r Hr.
  destruct r; try discriminate Hr; cbn [handle];
    rewrite ?Hd, ?Ht, ?Hp, ?Hq; reflexivity.
Qed.

Lemma disconnected_requests_401_witness :
  run (reject_all "unused")
      (handle (POST_query [("query", JStr "SELECT 1")]) initial)
  = (not_connected, initial, []).
Proof.
  apply (disconnected_requests_401 initial); reflexivity.
Defined.

(** C8: while connected, a query request whose body has no [query] field,
    or has the empty string there, is answered 400 at once; the handler
    makes no SDK call. *)
Theorem empty_query_400 (b : Obj) (s : Store) (client : Client) :
  bigQueryClient s = Some client ->
  lookup b "query" = None \/ lookup b "query" = Some (JStr "") ->
  post_query b s
  = Respond (status_json 400 [("error", JStr "Query is required")]) s
  /\ forall oracle,
       run oracle (handle (POST_query b) s)
       = (status_json 400 [("error", JStr "Query is required")], s, []).
Proof.
  intros Hc Hq.
  assert (Hfalsy : truthy (get b "query") = false).
  { destruct Hq as [Hq | Hq]; unfold get; rewrite Hq; reflexivity. }
  assert (Hresp : post_query b s
                  = Respond (status_json 400
                               [("error", JStr "Query is required")]) s).
  { unfold post_query. rewrite Hc, Hfalsy. reflexivity. }
  split; [exact Hresp |].
  intros oracle. cbn [handle]. rewrite Hresp. reflexivity.
Qed.

Lemma empty_query_400_witness :
  post_query [("query", JStr "")] proj1_connected
  = Respond (status_json 400 [("error", JStr "Query is required")])
            proj1_connected.
Proof.
  apply (empty_query_400 [("query", JStr "")] proj1_connected proj1_client).
  - reflexivity.
  - right. reflexivity.
Defined.

(** ** Disconnect *)

(** C6: the disconnect handler answers success from any store, without
    awaiting anything; the store it leaves has no client, so the status
    handler reports [connected: false]; and on that store a second
    disconnect changes nothing. *)
Theorem disconnect_clears_and_is_idempotent (s : Store) (oracle : Oracle) :
  let after := store_of (run oracle (handle POST_disconnect s)) in
  run oracle (handle POST_disconnect s)
  = (json [("success", JBool true)], initial, [])
  /\ get (status_body after) "connected" = JBool false
  /\ response_of (run oracle (handle GET_status after))
     = json [("connected", JBool false); ("projectId", JNull)]
  /\ run oracle (handle POST_disconnect after)
     = (json [("success", JBool true)], after, []).
Proof.
  cbv zeta. repeat split.
Qed.

(** ** Connect *)

(** A body carrying the three fields, the key being a string, takes the
    handler to its verification call: the client is built and assigned,
    and the handler suspends. *)
Lemma connect_suspends (b : Obj) (s : Store) (key : string) :
  truthy (get b "projectId") = true ->
  truthy (get b "clientEmail") = true ->
  get b "privateKey" = JStr key ->
  key <> "" ->
  let client := new_BigQuery (get b "projectId") (get b "clientEmail")
                             (replace_escaped_newlines key) in
  post_connect b s
  = Await (getDatasets client) (set_client (Some client) s)
          (connect_resume (get b "projectId") (get b "clientEmail")).
Proof.
  intros Hp He Hk Hne. unfold post_connect.
  rewrite Hp, He, Hk. cbn [truthy negb orb].
  apply String.eqb_neq in Hne. rewrite Hne. reflexivity.
Qed.

(** C2: when the verification call of a connect request rejects, with any
    message, the handler answers 401 with a body whose error text ends with
    that message and leaves the store empty, whatever the store held before
    the request and whatever it holds when the call settles; the status
    handler then reports [connected: false]. *)
Theorem connect_rejected_empties_store
    (b : Obj) (s : Store) (key message : string) (oracle : Oracle) :
  truthy (get b "projectId") = true ->
  truthy (get b "clientEmail") = true ->
  get b "privateKey" = JStr key ->
  key <> "" ->
  let client := new_BigQuery (get b "projectId") (get b "clientEmail")
                             (replace_escaped_newlines key) in
  let refused :=
    status_json 401
      [("error", JStr ("Authentication failed: " ++ message))] in
  oracle _ (getDatasets client) = Rejected message ->
  run oracle (handle (POST_connect b) s)
  = (refused, initial, [existT _ _ (getDatasets client)])
  /\ (forall s',
        connect_resume (get b "projectId") (get b "clientEmail")
                       (Rejected message) s'
        = Respond refused initial)
  /\ response_of (run oracle (handle GET_status initial))
     = json [("connected", JBool false); ("projectId", JNull)].
Proof.
  intros Hp He Hk Hne client refused Hrej.
  repeat split.
  cbn [handle]. rewrite (connect_suspends b s key Hp He Hk Hne).
  cbn [run]. fold client. rewrite Hrej. reflexivity.
Qed.

Lemma connect_rejected_empties_store_witness :
  run (reject_all "invalid_grant") (handle (POST_connect proj1_body)
                                           proj1_connected)
  = (status_json 401
       [("error", JStr "Authentication failed: invalid_grant")],
     initial, [existT _ _ (getDatasets proj1_client)]).
Proof.
  apply (connect_rejected_empties_store
           proj1_body proj1_connected
           "-----BEGIN KEY-----\nabc\n-----END KEY-----" "invalid_grant"
           (reject_all "invalid_grant"));
    try reflexivity.
  discriminate.
Defined.

(** C7, as the code has it: a connect request that reaches its
    verification call and sees it resolve answers success and stores the
    credentials; if the client variable has not been cleared by another
    handler when the call resolves, in particular when the request is
    served with nothing else in between, the status handler then reports
    [connected: true] and the [projectId] of the request. *)
Theorem connect_resolved_then_status
    (b : Obj) (s : Store) (key : string) (datasets : list Entity) :
  truthy (get b "projectId") = true ->
  truthy (get b "clientEmail") = true ->
  get b "privateKey" = JStr key ->
  key <> "" ->
  let client := new_BigQuery (get b "projectId") (get b "clientEmail")
                             (replace_escaped_newlines key) in
  let connected :=
    json [("success", JBool true); ("message", JStr "Connected to BigQuery")] in
  let reported :=
    json [("connected", JBool true); ("projectId", get b "projectId")] in
  (forall s', bigQueryClient s' <> None ->
     exists s'',
       connect_resume (get b "projectId") (get b "clientEmail")
                      (Resolved datasets) s'
       = Respond connected s''
       /\ get_status s'' = Respond reported s'')
  /\ (forall oracle : Oracle,
        oracle _ (getDatasets client) = Resolved datasets ->
        let out := run oracle (handle (POST_connect b) s) in
        response_of out = connected
        /\ response_of (run oracle (handle GET_status (store_of out)))
           = reported).
Proof.
  intros Hp He Hk Hne client connected reported.
  assert (Hstatus : forall s0, bigQueryClient s0 <> None ->
            status_body
              (set_credentials
                 (Some (mkCredentials (get b "projectId")
                                      (get b "clientEmail"))) s0)
            = [("connected", JBool true); ("projectId", get b "projectId")]).
  { intros s0 Hc. unfold status_body, set_credentials. cbn.
    destruct (bigQueryClient s0); [| contradiction].
    unfold or_else. rewrite Hp. reflexivity. }
  split.
  - intros s' Hc. eexists. split; [reflexivity |].
    unfold get_status. rewrite (Hstatus s' Hc). reflexivity.
  - intros oracle Hres out. subst out.
    cbn [handle]. rewrite (connect_suspends b s key Hp He Hk Hne).
    cbn [run]. fold client. rewrite Hres.
    cbn [connect_resume run response_of store_of fst snd get_status].
    split; [reflexivity |].
    rewrite Hstatus; [reflexivity | discriminate].
Qed.

Lemma connect_resolved_then_status_witness :
  response_of
    (run (resolve_all [] [] [] [])
         (handle GET_status
            (store_of (run (resolve_all [] [] [] [])
                           (handle (POST_connect proj1_body) initial)))))
  = json [("connected", JBool true); ("projectId", JStr "proj1")].
Proof.
  refine (proj2 (proj2
                   (connect_resolved_then_status
                      proj1_body initial
                      "-----BEGIN KEY-----\nabc\n-----END KEY-----" []
                      _ _ _ _)
                   (resolve_all [] [] [] []) _));
    try reflexivity.
  discriminate.
Defined.

(** A disconnect served while the verification call of a connect is
    pending: the connect then answers success and stores its credentials,
    but the client variable stays [null], and the status request that
    follows is told [connected: false]. *)
Lemma connect_success_status_disconnected :
  snd (steps boot [Arrive (POST_connect proj1_body);
                   Arrive POST_disconnect;
                   Settle 0 (resolve_all [] [] [] []);
                   Arrive GET_status])
  = [json [("success", JBool true)];
     json [("success", JBool true); ("message", JStr "Connected to BigQuery")];
     json [("connected", JBool false); ("projectId", JStr "proj1")]].
Proof. reflexivity. Qed.

(** ** The pairing of the two store variables *)

Lemma pairedb_spec (s : Store) : pairedb s = true <-> paired s.
Proof.
  unfold pairedb, paired.
  destruct (bigQueryClient s), (bigQueryCredentials s); split; intros H;
    try reflexivity; try discriminate.
  - right. split; discriminate.
  - destruct H as [[H _] | [_ H]]; [discriminate | contradiction].
  - destruct H as [[_ H] | [H _]]; [discriminate | contradiction].
  - left. split; reflexivity.
Qed.

(** The handlers that only read the store hand it back unchanged, whatever
    the SDK answers. *)
Lemma readers_keep_store (oracle : Oracle) (r : Request) (s : Store) :
  match r with
  | POST_connect _ | POST_disconnect => True
  | _ => serve oracle r s = s
  end.
Proof.
  destruct r; try exact I; unfold serve; cbn [handle].
  - reflexivity.
  - unfold get_datasets. destruct (bigQueryClient s); [| reflexivity].
    cbn [run]. destruct (oracle _ _); reflexivity.
  - unfold get_tables. destruct (bigQueryClient s); [| reflexivity].
    cbn [run]. destruct (oracle _ _); reflexivity.
  - unfold get_data. destruct (bigQueryClient s) eqn:Hc; [| reflexivity].
    cbn [run]. destruct (oracle _ _); [| reflexivity].
    destruct (bigQueryCredentials s); [| reflexivity].
    rewrite Hc. cbn [run]. destruct (oracle _ _); reflexivity.
  - unfold post_query. destruct (bigQueryClient s); [| reflexivity].
    destruct (negb _); [reflexivity |].
    cbn [run]. unfold query_resume. destruct (oracle _ _); reflexivity.
Qed.

(** A connect served to completion leaves the store as it was (400), empty
    (401) or with both variables set (success). *)
Lemma connect_serve_cases (oracle : Oracle) (b : Obj) (s : Store) :
  serve oracle (POST_connect b) s = s
  \/ serve oracle (POST_connect b) s = initial
  \/ exists client creds,
       bigQueryClient (serve oracle (POST_connect b) s) = Some client
       /\ bigQueryCredentials (serve oracle (POST_connect b) s) = Some creds.
Proof.
  unfold serve. cbn [handle]. unfold post_connect.
  destruct (negb _ || negb _ || negb _); [left; reflexivity |].
  destruct (get b "privateKey"); try (right; left; reflexivity).
  cbn [run]. destruct (oracle _ _); [| right; left; reflexivity].
  right. right. eexists. eexists. split; reflexivity.
Qed.

Lemma serve_preserves_paired (oracle : Oracle) (r : Request) (s : Store) :
  paired s -> paired (serve oracle r s).
Proof.
  intros Hs.
  pose proof (readers_keep_store oracle r s) as Hkeep.
  destruct r; try (rewrite Hkeep; exact Hs).
  - destruct (connect_serve_cases oracle req_body s)
      as [-> | [-> | (c & k & Hc & Hk)]].
    + exact Hs.
    + left. split; reflexivity.
    + right. rewrite Hc, Hk. split; discriminate.
  - left. split; reflexivity.
Qed.

(** C1, as the code has it: when requests are served one after another,
    each handler finishing before the next starts, every store reached has
    both variables set or both [null], and a request that needs a
    connection is either refused as not connected or finds both the client
    and the credentials.  Disconnect clears both variables before it
    answers, without awaiting; a connect served with nothing in between
    leaves the store as it was, empty, or with both variables set. *)
Theorem store_paired_between_requests (s : Store) :
  reachable s ->
  paired s
  /\ (forall r, requires_connection r = true ->
       handle r s = Respond not_connected s
       \/ exists client creds,
            bigQueryClient s = Some client
            /\ bigQueryCredentials s = Some creds)
  /\ post_disconnect s = Respond (json [("success", JBool true)]) initial
  /\ (forall oracle b,
        serve oracle (POST_connect b) s = s
        \/ serve oracle (POST_connect b) s = initial
        \/ exists client creds,
             bigQueryClient (serve oracle (POST_connect b) s) = Some client
             /\ bigQueryCredentials (serve oracle (POST_connect b) s)
                = Some creds).
Proof.
  intros Hreach.
  assert (Hp : paired s).
  { induction Hreach as [| oracle r s _ IH].
    - left. split; reflexivity.
    - apply serve_preserves_paired. exact IH. }
  split; [exact Hp |]. split; [| split; [reflexivity |]].
  - intros r Hr.
    destruct (bigQueryClient s) as [client |] eqn:Hc.
    + right. destruct (bigQueryCredentials s) as [creds |] eqn:Hk.
      * exists client, creds. split; reflexivity.
      * destruct Hp as [[H _] | [_ H]]; congruence.
    + left.
      destruct (no_client_not_connected s Hc) as (Hd & Ht & Hg & Hq).
      destruct r; try discriminate Hr; cbn [handle]; auto.
  - intros oracle b. apply connect_serve_cases.
Qed.

Lemma store_paired_between_requests_witness :
  paired (serve (resolve_all [] [] [] []) (POST_connect proj1_body) initial).
Proof.
  refine (proj1 (store_paired_between_requests _ _)).
  apply reachable_serve. apply reachable_initial.
Defined.

(** While a connect is suspended at its verification call the client
    variable is set and the credentials are still [null]: a status request
    served then is told [connected: true] with [projectId: null].  And once
    a disconnect has been served during that wait, the resumed connect
    leaves credentials with no client, nothing being suspended any more. *)
Lemma connect_in_flight_exposes_partial_store :
  (snd (steps boot [Arrive (POST_connect proj1_body); Arrive GET_status])
   = [json [("connected", JBool true); ("projectId", JNull)]]
   /\ ~ paired (store (fst (steps boot [Arrive (POST_connect proj1_body);
                                        Arrive GET_status]))))
  /\ (suspended (fst (steps boot [Arrive (POST_connect proj1_body);
                                  Arrive POST_disconnect;
                                  Settle 0 (resolve_all [] [] [] [])]))
      = []
      /\ ~ paired (store (fst (steps boot
                                 [Arrive (POST_connect proj1_body);
                                  Arrive POST_disconnect;
                                  Settle 0 (resolve_all [] [] [] [])])))).
Proof.
  repeat split; intros H; apply pairedb_spec in H; discriminate H.
Qed.

(** ** Ad hoc queries *)

(** In an object, whose property names are distinct, reading each key back
    gives the value listed with it. *)
Lemma get_own_entries {B} (f : string -> JsVal -> B) (o : Obj) :
  NoDup (keys o) ->
  map (fun name => f name (get o name)) (keys o)
  = map (fun p => f (fst p) (snd p)) o.
Proof.
  induction o as [| [k v] rest IH]; intros Hnd; [reflexivity |].
  cbn [keys map fst snd] in *. inversion Hnd as [| ? ? Hnotin Hnd']; subst.
  f_equal.
  - unfold get. cbn [lookup]. rewrite String.eqb_refl. reflexivity.
  - rewrite <- (IH Hnd'). apply map_ext_in. intros name Hin.
    unfold get. cbn [lookup].
    destruct (String.eqb k name) eqn:Heq; [| reflexivity].
    apply String.eqb_eq in Heq. subst name. contradiction.
Qed.

(** C9: a query request that is connected and carries a query suspends on
    the SDK's [query]; when that resolves with [rows], the response carries
    the rows and a schema with one entry per key of the first row, in key
    order, naming the key and the [typeof] of the value the first row has
    under it; with no rows the schema is empty. *)
Theorem query_schema_from_first_row
    (b : Obj) (s s' : Store) (client : Client) (rows : list Obj) :
  bigQueryClient s = Some client ->
  truthy (get b "query") = true ->
  post_query b s = Await (query client (get b "query")) s query_resume
  /\ exists schema,
       query_resume (Resolved rows) s'
       = Respond (json [("rows", JArr (map JObj rows));
                        ("schema", JArr schema)]) s'
       /\ (rows = [] -> schema = [])
       /\ forall row0 rest, rows = row0 :: rest ->
            List.length schema = List.length (keys row0)
            /\ (forall i name, nth_error (keys row0) i = Some name ->
                  nth_error schema i
                  = Some (JObj [("name", JStr name);
                                ("type", JStr (typeof (get row0 name)))]))
            /\ (NoDup (keys row0) ->
                  schema
                  = map (fun p => JObj [("name", JStr (fst p));
                                        ("type", JStr (typeof (snd p)))])
                        row0).
Proof.
  intros Hc Hq. split.
  - unfold post_query. rewrite Hc, Hq. reflexivity.
  - exists (infer_schema rows). split; [reflexivity |].
    split; [intros ->; reflexivity |].
    intros row0 rest ->. cbn [infer_schema]. repeat split.
    + apply List.length_map.
    + intros i name Hi.
      exact (map_nth_error
               (fun name => JObj [("name", JStr name);
                                  ("type", JStr (typeof (get row0 name)))])
               i (keys row0) Hi).
    + intros Hnd.
      apply (get_own_entries
               (fun name v => JObj [("name", JStr name);
                                    ("type", JStr (typeof v))])).
      exact Hnd.
Qed.

Lemma query_schema_from_first_row_witness :
  post_query [("query", JStr "SELECT 1 AS n, 'a' AS t")] proj1_connected
  = Await (query proj1_client (JStr "SELECT 1 AS n, 'a' AS t"))
          proj1_connected query_resume.
Proof.
  refine (proj1 (query_schema_from_first_row
                   [("query", JStr "SELECT 1 AS n, 'a' AS t")]
                   proj1_connected proj1_connected proj1_client
                   [[("n", JNum (Int 1)); ("t", JStr "a")]] _ _));
    reflexivity.
Defined.

Example infer_schema_sample :
  infer_schema [[("n", JNum (Int 1)); ("t", JStr "a"); ("z", JNull)];
                [("n", JNum (Int 2)); ("t", JStr "b"); ("z", JBool true)]]
  = [JObj [("name", JStr "n"); ("type", JStr "number")];
     JObj [("name", JStr "t"); ("type", JStr "string")];
     JObj [("name", JStr "z"); ("type", JStr "object")]].
Proof. reflexivity. Qed.

(** ** Paging parameters *)







(** With neither parameter the page query sent to the SDK ends in
    [LIMIT 100 OFFSET 0]. *)
Example page_query_defaults :
  run (resolve_all [] [] [] []) (handle (GET_data "ds" "t" []) proj1_connected)
  = (json [("rows", JArr []); ("schema", JArr []); ("total", JUndefined)],
     proj1_connected,
     [existT _ _ (getMetadata proj1_client "ds" "t");
      existT _ _
        (query proj1_client
           (JStr "SELECT * FROM `proj1.ds.t` LIMIT 100 OFFSET 0"))]).
Proof. reflexivity. Qed.



(** A page request that arrives while a connect is suspended passes the
    client guard, and once its metadata call resolves it reads
    [projectId] of the credentials that are still [null]: the TypeError is
    reported as a 500. *)
Example page_request_during_connect :
  snd (steps boot [Arrive (POST_connect proj1_body);
                   Arrive (GET_data "ds" "t" []);
                   Settle 1 (resolve_all [] [] [] [])])
  = [upstream_error "Cannot read properties of null (reading 'projectId')"].
Proof. reflexivity. Qed.

(** * Further properties of the handlers *)

(** ** Normalisation of the private key *)

Lemma replace_escaped_newlines_step (c : ascii) (rest : string) :
  replace_escaped_newlines (String c rest)
  = if Ascii.eqb c "092" && starts_with_n rest
    then String "010" (replace_escaped_newlines (drop_first rest))
    else String c (replace_escaped_newlines rest).
Proof.
  cbn [replace_escaped_newlines].
  destruct (Ascii.eqb c "092"); [| reflexivity].
  destruct rest as [| a r]; [reflexivity |].
  destruct a as [[] [] [] [] [] [] [] []]; reflexivity.
Qed.

(** Normalising does not change whether a text begins with [n]. *)
Lemma starts_with_n_replaced (s : string) :
  starts_with_n (replace_escaped_newlines s) = starts_with_n s.
Proof.
  destruct s as [| a r]; [reflexivity |].
  rewrite replace_escaped_newlines_step.
  destruct (Ascii.eqb a "092") eqn:Ha; [| reflexivity].
  apply Ascii.eqb_eq in Ha. subst a.
  destruct (starts_with_n r); reflexivity.
Qed.

Lemma replaced_has_no_escaped_newline (s : string) :
  has_escaped_newline (replace_escaped_newlines s) = false
  /\ forall c,
       has_escaped_newline (replace_escaped_newlines (String c s)) = false.
Proof.
  induction s as [| a r [IHr IHar]].
  - split; [reflexivity |]. intros c.
    rewrite replace_escaped_newlines_step. rewrite andb_false_r.
    cbn. rewrite andb_false_r. reflexivity.
  - split; [apply IHar |]. intros c.
    rewrite replace_escaped_newlines_step.
    destruct (Ascii.eqb c "092" && starts_with_n (String a r)) eqn:Hcase.
    + cbn [drop_first has_escaped_newline]. rewrite IHr. reflexivity.
    + cbn [has_escaped_newline].
      rewrite starts_with_n_replaced, Hcase, (IHar a). reflexivity.
Qed.

Lemma replace_without_escaped_newline (s : string) :
  has_escaped_newline s = false -> replace_escaped_newlines s = s.
Proof.
  induction s as [| c rest IH]; [reflexivity |].
  cbn [has_escaped_newline]. intros H.
  apply orb_false_iff in H. destruct H as [Hhead Hrest].
  rewrite replace_escaped_newlines_step, Hhead, (IH Hrest). reflexivity.
Qed.

Lemma replace_not_longer (s : string) :
  (String.length (replace_escaped_newlines s) <= String.length s)%nat
  /\ forall c,
       (String.length (replace_escaped_newlines (String c s))
        <= S (String.length s))%nat.
Proof.
  induction s as [| a r [IHr IHar]].
  - split; [apply Nat.le_refl |]. intros c.
    rewrite replace_escaped_newlines_step, andb_false_r. apply Nat.le_refl.
  - split; [apply IHar |]. intros c.
    rewrite replace_escaped_newlines_step.
    destruct (Ascii.eqb c "092" && starts_with_n (String a r)).
    + cbn [drop_first String.length]. lia.
    + cbn [String.length]. specialize (IHar a). cbn [String.length] in IHar.
      lia.
Qed.

(** Up to and including its first backslash-n pair, a text is copied with
    the pair turned into a line feed. *)
Lemma replace_first_pair (prefix rest : string) :
  has_escaped_newline prefix = false ->
  replace_escaped_newlines (prefix ++ String "092" (String "n" rest))
  = (prefix ++ String "010" (replace_escaped_newlines rest))%string.
Proof.
  induction prefix as [| c p IH]; intros H; [reflexivity |].
  cbn [has_escaped_newline] in H. apply orb_false_iff in H.
  destruct H as [Hhead Hrest].
  cbn [String.append]. rewrite replace_escaped_newlines_step.
  assert (Hcase : Ascii.eqb c "092"
                  && starts_with_n (p ++ String "092" (String "n" rest))
                  = false).
  { destruct p as [| a p']; [apply andb_false_r | exact Hhead]. }
  rewrite Hcase, (IH Hrest). reflexivity.
Qed.

(** X1: normalising the key turns each backslash-n pair into one line
    feed (code 10) and copies everything else: a key without a pair is
    returned as it is, and a key is copied up to its first pair, which
    becomes a line feed, the rest being normalised in the same way.  The
    result holds no pair any more, normalising it again changes nothing,
    and it is never longer than the key. *)
Theorem key_normalisation (key : string) :
  has_escaped_newline (replace_escaped_newlines key) = false
  /\ replace_escaped_newlines (replace_escaped_newlines key)
     = replace_escaped_newlines key
  /\ (has_escaped_newline key = false -> replace_escaped_newlines key = key)
  /\ (forall prefix rest,
        has_escaped_newline prefix = false ->
        key = (prefix ++ String "092" (String "n" rest))%string ->
        replace_escaped_newlines key
        = (prefix ++ String "010" (replace_escaped_newlines rest))%string)
  /\ (String.length (replace_escaped_newlines key) <= String.length key)%nat.
Proof.
  pose proof (proj1 (replaced_has_no_escaped_newline key)) as Hnone.
  repeat split.
  - exact Hnone.
  - apply replace_without_escaped_newline. exact Hnone.
  - apply replace_without_escaped_newline.
  - intros prefix rest Hprefix ->. apply replace_first_pair. exact Hprefix.
  - apply (proj1 (replace_not_longer key)).
Qed.

Lemma key_normalisation_witness :
  replace_escaped_newlines "-----BEGIN KEY-----\nabc"
  = ("-----BEGIN KEY-----" ++ String "010" "abc")%string.
Proof.
  apply (proj1 (proj2 (proj2 (proj2
           (key_normalisation "-----BEGIN KEY-----\nabc"))))
           "-----BEGIN KEY-----" "abc");
    reflexivity.
Defined.

(** ** Reading decimal parameters *)

(** A decimal digit character is no white space, no sign, and a radix-10
    digit of its own value. *)
Lemma uint_head_digit (d : Decimal.uint) (tail : string) :
  d <> Decimal.Nil ->
  exists c rest v,
    (NilEmpty.string_of_uint d ++ tail)%string = String c rest
    /\ is_white_space c = false
    /\ split_sign (String c rest) = (1, String c rest)
    /\ radix_digit 10 c = Some v.
Proof.
  destruct d; intros Hd; try contradiction;
    cbn [NilEmpty.string_of_uint String.append];
    eexists; eexists; eexists; repeat split.
Qed.









(** X3: when [limit] and [offset] are absent or given as texts, the limit
    written into the page query is never [NaN] and never a zero of either
    sign, and the offset is never [NaN] and never the negative zero: the
    fallback replaces exactly these values. *)
Theorem page_numbers_never_nan (q : Obj) :
  parameter_text (get q "limit") ->
  parameter_text (get q "offset") ->
  (page_limit q <> NaN /\ page_limit q <> NegZero /\ page_limit q <> Int 0)
  /\ (page_offset q <> NaN /\ page_offset q <> NegZero)
  /\ (page_limit q = parseInt (get q "limit") \/ page_limit q = Int 100)
  /\ (page_offset q = parseInt (get q "offset") \/ page_offset q = Int 0).
Proof.
  intros _ _. unfold page_limit, page_offset, num_or.
  destruct (parseInt (get q "limit")) as [| | l];
    destruct (parseInt (get q "offset")) as [| | o];
    cbn [truthy_num];
    try destruct (Z.eqb_spec l 0); try destruct (Z.eqb_spec o 0);
    cbn [negb]; repeat split; auto; try discriminate;
    intros H; injection H as H; contradiction.
Qed.

Lemma page_numbers_never_nan_witness :
  page_limit [("limit", JStr "-0"); ("offset", JStr "x")] <> NegZero
  /\ page_offset [("limit", JStr "-0"); ("offset", JStr "x")] <> NaN.
Proof.
  pose proof (page_numbers_never_nan
                [("limit", JStr "-0"); ("offset", JStr "x")]
                (or_intror (ex_intro _ "-0" eq_refl))
                (or_intror (ex_intro _ "x" eq_refl)))
    as ((_ & Hlimit & _) & (Hoffset & _) & _).
  split; assumption.
Defined.

(** ** Connect: the guard, the key and the result *)

Lemma falsy_values (v : JsVal) : truthy v = false <-> falsy_value v.
Proof.
  unfold falsy_value. split.
  - destruct v as [| | [] | [| | z] | s | |]; cbn; intros H;
      try discriminate H; auto 10.
    + destruct (Z.eqb_spec z 0); [subst; auto 10 | discriminate H].
    + destruct (String.eqb_spec s ""); [subst; auto 10 | discriminate H].
  - intros [-> | [-> | [-> | [-> | [-> | [-> | ->]]]]]]; reflexivity.
Qed.

(** X4: a connect request is answered 400 exactly when one of
    [projectId], [clientEmail], [privateKey] is absent, [null], [false],
    the empty string or zero; it then changes nothing and calls nothing. *)
Theorem connect_400_iff_falsy_field (b : Obj) (s : Store) (oracle : Oracle) :
  let out := run oracle (handle (POST_connect b) s) in
  (status (response_of out) = 400
   <-> falsy_value (get b "projectId")
       \/ falsy_value (get b "clientEmail")
       \/ falsy_value (get b "privateKey"))
  /\ (status (response_of out) = 400 ->
      store_of out = s /\ calls_of out = []).
Proof.
  cbv zeta. cbn [handle]. rewrite <- !falsy_values.
  destruct (truthy (get b "projectId")) eqn:Hp;
    [| rewrite (connect_guard_rejects b s (or_introl Hp));
       split; [split; auto | split; reflexivity]].
  destruct (truthy (get b "clientEmail")) eqn:He;
    [| rewrite (connect_guard_rejects b s (or_intror (or_introl He)));
       split; [split; auto | split; reflexivity]].
  destruct (truthy (get b "privateKey")) eqn:Hk;
    [| rewrite (connect_guard_rejects b s (or_intror (or_intror Hk)));
       split; [split; auto | split; reflexivity]].
  assert (Hnot : status (response_of (run oracle (post_connect b s))) <> 400).
  { unfold post_connect. rewrite Hp, He, Hk. cbn [negb orb].
    destruct (get b "privateKey"); try discriminate.
    cbn [run]. destruct (oracle _ _); discriminate. }
  split; [split |]; intros H;
    try contradiction;
    destruct H as [H | [H | H]]; discriminate H.
Qed.

Lemma connect_400_iff_falsy_field_witness :
  store_of (run (reject_all "unused")
                (handle (POST_connect [("projectId", JStr "")])
                        proj1_connected))
  = proj1_connected.
Proof.
  refine (proj1 (proj2 (connect_400_iff_falsy_field
                          [("projectId", JStr "")] proj1_connected
                          (reject_all "unused")) _)).
  reflexivity.
Defined.

(** X5: when the three fields are truthy but [privateKey] is not a string,
    the handler fails before building a client: it answers 401, empties
    the store even if a session was open, and calls nothing. *)
Theorem connect_non_string_key (b : Obj) (s : Store) (oracle : Oracle) :
  truthy (get b "projectId") = true ->
  truthy (get b "clientEmail") = true ->
  truthy (get b "privateKey") = true ->
  (forall key, get b "privateKey" <> JStr key) ->
  run oracle (handle (POST_connect b) s)
  = (status_json 401
       [("error",
         JStr "Authentication failed: privateKey.replace is not a function")],
     initial, []).
Proof.
  intros Hp He Hk Hnot. cbn [handle]. unfold post_connect.
  rewrite Hp, He, Hk. cbn [negb orb].
  destruct (get b "privateKey") as [| | | | key | |]; try reflexivity.
  exfalso. exact (Hnot key eq_refl).
Qed.

Lemma connect_non_string_key_witness :
  run (reject_all "unused")
      (handle (POST_connect [("projectId", JStr "proj1");
                             ("clientEmail", JStr "svc@proj1.example");
                             ("privateKey", JNum (Int 7))])
              proj1_connected)
  = (status_json 401
       [("error",
         JStr "Authentication failed: privateKey.replace is not a function")],
     initial, []).
Proof.
  apply connect_non_string_key; try reflexivity. discriminate.
Defined.

(** X6: a connect whose verification resolves, served on its own, leaves
    exactly the new client and the new credentials in the store, whatever
    was there before; it makes one SDK call, on the new client, whose key
    holds no backslash-n pair, and it ignores the datasets returned. *)
Theorem connect_resolved_result
    (b : Obj) (s : Store) (key : string) (datasets : list Entity)
    (oracle : Oracle) :
  truthy (get b "projectId") = true ->
  truthy (get b "clientEmail") = true ->
  get b "privateKey" = JStr key ->
  key <> "" ->
  let client := new_BigQuery (get b "projectId") (get b "clientEmail")
                             (replace_escaped_newlines key) in
  oracle _ (getDatasets client) = Resolved datasets ->
  run oracle (handle (POST_connect b) s)
  = (json [("success", JBool true); ("message", JStr "Connected to BigQuery")],
     {| bigQueryClient := Some client;
        bigQueryCredentials :=
          Some (mkCredentials (get b "projectId") (get b "clientEmail")) |},
     [existT _ _ (getDatasets client)])
  /\ has_escaped_newline (cfg_private_key client) = false.
Proof.
  intros Hp He Hk Hne client Hres. split.
  - cbn [handle]. rewrite (connect_suspends b s key Hp He Hk Hne).
    cbn [run]. fold client. rewrite Hres. reflexivity.
  - apply (proj1 (replaced_has_no_escaped_newline key)).
Qed.

Lemma connect_resolved_result_witness :
  store_of (run (resolve_all [] [] [] [])
                (handle (POST_connect proj1_body) initial))
  = proj1_connected.
Proof.
  refine (f_equal store_of
            (proj1 (connect_resolved_result
                      proj1_body initial
                      "-----BEGIN KEY-----\nabc\n-----END KEY-----" []
                      (resolve_all [] [] [] []) _ _ _ _ _)));
    try reflexivity.
  discriminate.
Defined.

(** ** The session between requests *)

Lemma serve_keeps_session (oracle : Oracle) (r : Request) (s : Store) :
  session_consistent s -> session_consistent (serve oracle r s).
Proof.
  intros Hs.
  pose proof (readers_keep_store oracle r s) as Hkeep.
  destruct r; try (rewrite Hkeep; exact Hs); [| exact I].
  unfold serve. cbn [handle]. unfold post_connect.
  destruct (truthy (get req_body "projectId")) eqn:Hp; [| exact Hs].
  destruct (truthy (get req_body "clientEmail")) eqn:He; [| exact Hs].
  destruct (truthy (get req_body "privateKey")) eqn:Hk; [| exact Hs].
  cbn [negb orb].
  destruct (get req_body "privateKey") as [| | | | key | |]; try exact I.
  cbn [run]. destruct (oracle _ _); [| exact I].
  unfold session_consistent. cbn.
  repeat split; auto.
  apply (proj1 (replaced_has_no_escaped_newline key)).
Qed.

(** X7: when requests are served one after another, the client in the
    store is always the one built from the stored credentials (same
    project and account, both truthy, key normalised), and the status
    handler, which calls nothing and changes nothing, reports either
    [connected: false] with [projectId: null] or [connected: true] with
    the project the client was built for. *)
Theorem session_describes_client (s : Store) :
  reachable s ->
  session_consistent s
  /\ (forall oracle,
        run oracle (handle GET_status s)
        = (json [("connected", JBool false); ("projectId", JNull)], s, [])
        \/ exists client,
             bigQueryClient s = Some client
             /\ run oracle (handle GET_status s)
                = (json [("connected", JBool true);
                         ("projectId", cfg_projectId client)], s, [])).
Proof.
  intros Hreach.
  assert (Hs : session_consistent s).
  { induction Hreach as [| oracle r s _ IH]; [exact I |].
    apply serve_keeps_session. exact IH. }
  split; [exact Hs |]. intros oracle.
  unfold session_consistent in Hs. cbn [handle run get_status].
  unfold status_body.
  destruct (bigQueryClient s) as [client |],
           (bigQueryCredentials s) as [creds |];
    try contradiction.
  - right. exists client. split; [reflexivity |].
    destruct Hs as (Hproj & _ & Htruthy & _).
    unfold or_else. rewrite Htruthy, Hproj. reflexivity.
  - left. reflexivity.
Qed.

Lemma session_describes_client_witness :
  session_consistent
    (serve (resolve_all [] [] [] []) (POST_connect proj1_body) initial).
Proof.
  refine (proj1 (session_describes_client _ _)).
  apply reachable_serve. apply reachable_initial.
Defined.

(** ** Listing datasets and tables *)

(** X8: when connected, the dataset listing makes one SDK call, on the
    stored client, and leaves the store alone.  If the call resolves, the
    response lists as many entries as the SDK returned, in the same order,
    each with the dataset's [id] and the [location] of its metadata, which
    is [undefined] when the dataset has no metadata; if it rejects, the
    answer is 500 with the error's message unchanged. *)
Theorem list_datasets_result (s : Store) (client : Client) (oracle : Oracle) :
  bigQueryClient s = Some client ->
  (forall datasets,
     oracle _ (getDatasets client) = Resolved datasets ->
     exists entries,
       run oracle (handle GET_datasets s)
       = (json [("datasets", JArr entries)], s,
          [existT _ _ (getDatasets client)])
       /\ List.length entries = List.length datasets
       /\ (forall i ds,
             nth_error datasets i = Some ds ->
             nth_error entries i
             = Some (JObj [("id", id ds);
                           ("location", opt_chain (metadata ds) "location")]))
       /\ (forall i ds,
             nth_error datasets i = Some ds ->
             metadata ds = JUndefined \/ metadata ds = JNull ->
             nth_error entries i
             = Some (JObj [("id", id ds); ("location", JUndefined)])))
  /\ (forall message,
        oracle _ (getDatasets client) = Rejected message ->
        run oracle (handle GET_datasets s)
        = (upstream_error message, s, [existT _ _ (getDatasets client)])).
Proof.
  intros Hc. cbn [handle]. unfold get_datasets. rewrite Hc. cbn [run].
  split.
  - intros datasets ->. eexists. split; [reflexivity |].
    split; [apply List.length_map |]. split.
    + intros i ds Hi.
      exact (map_nth_error
               (fun ds => JObj [("id", id ds);
                                ("location", opt_chain (metadata ds) "location")])
               i datasets Hi).
    + intros i ds Hi Hmeta.
      rewrite (map_nth_error
                 (fun ds => JObj [("id", id ds);
                                  ("location",
                                   opt_chain (metadata ds) "location")])
                 i datasets Hi).
      destruct Hmeta as [-> | ->]; reflexivity.
  - intros message ->. reflexivity.
Qed.

Lemma list_datasets_result_witness :
  run (reject_all "quota exceeded") (handle GET_datasets proj1_connected)
  = (upstream_error "quota exceeded", proj1_connected,
     [existT _ _ (getDatasets proj1_client)]).
Proof.
  apply (proj2 (list_datasets_result proj1_connected proj1_client
                  (reject_all "quota exceeded") eq_refl)).
  reflexivity.
Defined.

(** X9: when connected, the table listing makes one SDK call, for the
    dataset named in the path and on the stored client, and leaves the
    store alone.  If the call resolves, the response lists the tables in
    the order returned, each with its [id] and the [type] of its metadata;
    if it rejects, the answer is 500 with the error's message unchanged. *)
Theorem list_tables_result
    (datasetId : string) (s : Store) (client : Client) (oracle : Oracle) :
  bigQueryClient s = Some client ->
  (forall tables,
     oracle _ (getTables client datasetId) = Resolved tables ->
     exists entries,
       run oracle (handle (GET_tables datasetId) s)
       = (json [("tables", JArr entries)], s,
          [existT _ _ (getTables client datasetId)])
       /\ List.length entries = List.length tables
       /\ (forall i t,
             nth_error tables i = Some t ->
             nth_error entries i
             = Some (JObj [("id", id t);
                           ("type", opt_chain (metadata t) "type")])))
  /\ (forall message,
        oracle _ (getTables client datasetId) = Rejected message ->
        run oracle (handle (GET_tables datasetId) s)
        = (upstream_error message, s,
           [existT _ _ (getTables client datasetId)])).
Proof.
  intros Hc. cbn [handle]. unfold get_tables. rewrite Hc. cbn [run].
  split.
  - intros tables ->. eexists. split; [reflexivity |].
    split; [apply List.length_map |].
    intros i t Hi.
    exact (map_nth_error
             (fun t => JObj [("id", id t);
                             ("type", opt_chain (metadata t) "type")])
             i tables Hi).
  - intros message ->. reflexivity.
Qed.

Lemma list_tables_result_witness :
  run (reject_all "Not found: Dataset proj1:ds")
      (handle (GET_tables "ds") proj1_connected)
  = (upstream_error "Not found: Dataset proj1:ds", proj1_connected,
     [existT _ _ (getTables proj1_client "ds")]).
Proof.
  apply (proj2 (list_tables_result "ds" proj1_connected proj1_client
                  (reject_all "Not found: Dataset proj1:ds") eq_refl)).
  reflexivity.
Defined.

(** ** Table pages *)

(** X10: a page request whose [limit] and [offset] are absent or texts
    that read as integers below 2^53 in magnitude, served on a store that
    holds a client and credentials with a text as [projectId], first asks
    for the table's metadata; if that rejects, the answer is 500 with the
    message and no query is run.  Otherwise it runs one query, the
    generated text for the stored project with that limit and offset; a
    rejection is answered 500 with the message, and rows are returned with
    the metadata's row count and its schema fields, the schema being empty
    when the metadata has no schema.  The store is never changed. *)
Theorem table_page_result
    (d t project : string) (q : Obj) (limit offset : Z) (s : Store)
    (client : Client) (creds : Credentials) (oracle : Oracle) :
  bigQueryClient s = Some client ->
  bigQueryCredentials s = Some creds ->
  projectId creds = JStr project ->
  parameter_text (get q "limit") ->
  parameter_text (get q "offset") ->
  page_limit q = Int limit ->
  page_offset q = Int offset ->
  safe_integer limit ->
  safe_integer offset ->
  let metadata_call := getMetadata client d t in
  let page_call :=
    query client
          (JStr ("SELECT * FROM `" ++ project ++ "." ++ d ++ "." ++ t
                 ++ "` LIMIT " ++ NilZero.string_of_int (Z.to_int limit)
                 ++ " OFFSET " ++ NilZero.string_of_int (Z.to_int offset))) in
  let out := run oracle (handle (GET_data d t q) s) in
  store_of out = s
  /\ (forall message,
        oracle _ metadata_call = Rejected message ->
        out = (upstream_error message, s, [existT _ _ metadata_call]))
  /\ (forall meta message,
        oracle _ metadata_call = Resolved meta ->
        oracle _ page_call = Rejected message ->
        out = (upstream_error message, s,
               [existT _ _ metadata_call; existT _ _ page_call]))
  /\ (forall meta rows,
        oracle _ metadata_call = Resolved meta ->
        oracle _ page_call = Resolved rows ->
        exists schema,
          out = (json [("rows", JArr (map JObj rows));
                       ("schema", schema);
                       ("total", get meta "numRows")],
                 s, [existT _ _ metadata_call; existT _ _ page_call])
          /\ (lookup meta "schema" = None -> schema = JArr [])
          /\ (forall fields,
                lookup meta "schema" = Some (JObj fields) ->
                truthy (get fields "fields") = true ->
                schema = get fields "fields")).
Proof.
  intros Hc Hk Hproject _ _ Hlimit Hoffset _ _ metadata_call page_call out.
  subst out metadata_call page_call.
  cbn [handle]. unfold get_data. rewrite Hc. cbv zeta. cbn [run].
  rewrite Hlimit, Hoffset. unfold page_sql. cbn [num_to_string].
  split; [| split; [| split]].
  - destruct (oracle _ (getMetadata client d t)); [| reflexivity].
    rewrite Hk, Hc. cbn [run]. destruct (oracle _ _); reflexivity.
  - intros message ->. reflexivity.
  - intros meta message ->. rewrite Hk, Hc, Hproject. cbn [run ToString].
    intros ->. reflexivity.
  - intros meta rows ->. rewrite Hk, Hc, Hproject. cbn [run ToString].
    intros ->.
    eexists. split; [reflexivity |]. split.
    + intros Habsent. rewrite (get_absent _ _ Habsent). reflexivity.
    + intros fields Hschema Htruthy. unfold get at 1. rewrite Hschema.
      cbn [opt_chain]. unfold or_else. rewrite Htruthy. reflexivity.
Qed.

Lemma table_page_result_witness :
  run (resolve_all [] [] [("numRows", JStr "0")] [])
      (handle (GET_data "ds" "t" [("limit", JStr "20")]) proj1_connected)
  = (json [("rows", JArr []); ("schema", JArr []);
           ("total", JStr "0")],
     proj1_connected,
     [existT _ _ (getMetadata proj1_client "ds" "t");
      existT _ _
        (query proj1_client
               (JStr "SELECT * FROM `proj1.ds.t` LIMIT 20 OFFSET 0"))]).
Proof.
  destruct (proj2 (proj2 (proj2
              (table_page_result
                 "ds" "t" "proj1" [("limit", JStr "20")] 20 0
                 proj1_connected proj1_client
                 (mkCredentials (JStr "proj1") (JStr "svc@proj1.example"))
                 (resolve_all [] [] [("numRows", JStr "0")] [])
                 eq_refl eq_refl eq_refl
                 (or_intror (ex_intro _ "20" eq_refl))
                 (or_introl eq_refl)
                 eq_refl eq_refl eq_refl eq_refl)))
              [("numRows", JStr "0")] [] eq_refl eq_refl)
    as (schema & Hout & Hempty & _).
  rewrite Hout, (Hempty eq_refl). reflexivity.
Defined.

Example table_page_sample :
  run (resolve_all [] []
         [("numRows", JStr "2");
          ("schema", JObj [("fields",
                            JArr [JObj [("name", JStr "n");
                                        ("type", JStr "INTEGER")]])])]
         [[("n", JNum (Int 1))]; [("n", JNum (Int 2))]])
      (handle (GET_data "ds" "t" [("limit", JStr "2"); ("offset", JStr "4")])
              proj1_connected)
  = (json [("rows", JArr [JObj [("n", JNum (Int 1))];
                          JObj [("n", JNum (Int 2))]]);
           ("schema", JArr [JObj [("name", JStr "n");
                                  ("type", JStr "INTEGER")]]);
           ("total", JStr "2")],
     proj1_connected,
     [existT _ _ (getMetadata proj1_client "ds" "t");
      existT _ _
        (query proj1_client
               (JStr "SELECT * FROM `proj1.ds.t` LIMIT 2 OFFSET 4"))]).
Proof. reflexivity. Qed.

(** ** Ad hoc queries: the guard, the call and the schema *)

(** X11: when connected, a query request is answered 400 exactly when its
    [query] is absent, [null], [false], the empty string or zero.
    Otherwise the handler makes one SDK call, passing the [query] value on
    as it came, leaves the store alone, and answers a rejection with 500
    and the error's message unchanged. *)
Theorem query_passed_on
    (b : Obj) (s : Store) (client : Client) (oracle : Oracle) :
  bigQueryClient s = Some client ->
  let out := run oracle (handle (POST_query b) s) in
  (status (response_of out) = 400 <-> falsy_value (get b "query"))
  /\ store_of out = s
  /\ (truthy (get b "query") = true ->
      calls_of out = [existT _ _ (query client (get b "query"))]
      /\ forall message,
           oracle _ (query client (get b "query")) = Rejected message ->
           response_of out = upstream_error message).
Proof.
  intros Hc out. subst out. rewrite <- falsy_values.
  cbn [handle]. unfold post_query. rewrite Hc.
  destruct (truthy (get b "query")) eqn:Hq; cbn [negb run].
  - split; [| split].
    + unfold query_resume.
      destruct (oracle _ _); split; intros H; discriminate H.
    + unfold query_resume. destruct (oracle _ _); reflexivity.
    + intros _. split.
      * unfold query_resume. destruct (oracle _ _); reflexivity.
      * intros message ->. reflexivity.
  - split; [| split].
    + split; reflexivity.
    + reflexivity.
    + intros H. discriminate H.
Qed.

Lemma query_passed_on_witness :
  calls_of (run (reject_all "Syntax error")
                (handle (POST_query [("query", JStr "SELEC 1")])
                        proj1_connected))
  = [existT _ _ (query proj1_client (JStr "SELEC 1"))].
Proof.
  refine (proj1 (proj2 (proj2 (query_passed_on
                                 [("query", JStr "SELEC 1")] proj1_connected
                                 proj1_client (reject_all "Syntax error")
                                 eq_refl)) _)).
  reflexivity.
Defined.

Lemma typeof_in_type_names (v : JsVal) : In (typeof v) type_names.
Proof.
  destruct v; cbn; auto 10.
Qed.

(** X12: the inferred schema looks at the first row only: later rows, and
    columns that only they have, do not count.  It has one entry per
    property of that row; every entry names a key of the row and gives one
    of [undefined], [object], [boolean], [number], [string] as type, a
    [null] or array value being reported as [object]. *)
Theorem schema_reads_first_row_only (row0 : Obj) (rest : list Obj) :
  infer_schema (row0 :: rest) = infer_schema [row0]
  /\ List.length (infer_schema (row0 :: rest)) = List.length row0
  /\ Forall (fun entry =>
               exists name ty,
                 entry = JObj [("name", JStr name); ("type", JStr ty)]
                 /\ In name (keys row0)
                 /\ In ty type_names)
            (infer_schema (row0 :: rest))
  /\ (forall name v,
        lookup row0 name = Some v ->
        v = JNull \/ (exists elems, v = JArr elems) ->
        In (JObj [("name", JStr name); ("type", JStr "object")])
           (infer_schema (row0 :: rest))).
Proof.
  cbn [infer_schema]. split; [reflexivity |]. split; [| split].
  - unfold keys. rewrite !List.length_map. reflexivity.
  - apply Forall_forall. intros entry Hin.
    apply in_map_iff in Hin. destruct Hin as (name & <- & Hname).
    exists name, (typeof (get row0 name)).
    split; [reflexivity |]. split; [exact Hname |].
    apply typeof_in_type_names.
  - intros name v Hlook Hv.
    apply in_map_iff. exists name. split.
    + unfold get. rewrite Hlook.
      destruct Hv as [-> | [elems ->]]; reflexivity.
    + unfold keys. clear Hv. induction row0 as [| [k w] o IH];
        [discriminate Hlook |].
      cbn [lookup] in Hlook. cbn [map fst In].
      destruct (String.eqb k name) eqn:Hk.
      * left. apply String.eqb_eq. exact Hk.
      * right. apply IH. exact Hlook.
Qed.

Lemma schema_reads_first_row_only_witness :
  In (JObj [("name", JStr "tags"); ("type", JStr "object")])
     (infer_schema [[("n", JNum (Int 1)); ("tags", JArr [])];
                    [("n", JNum (Int 2)); ("tags", JArr []);
                     ("extra", JBool true)]]).
Proof.
  apply (proj2 (proj2 (proj2
           (schema_reads_first_row_only
              [("n", JNum (Int 1)); ("tags", JArr [])]
              [[("n", JNum (Int 2)); ("tags", JArr []);
                ("extra", JBool true)]])))
           "tags" (JArr [])).
  - reflexivity.
  - right. exists []. reflexivity.
Defined.

(** ** Shape of the responses *)

Lemma answers_run (P : Response -> Prop) (h : Handler) (oracle : Oracle) :
  answers P h -> P (response_of (run oracle h)).
Proof.
  induction 1 as [r s Hr | A c s k _ IH]; [exact Hr |].
  cbn [run]. specialize (IH (oracle _ c) s).
  destruct (run oracle (k (oracle A c) s)) as [[r s'] calls]. exact IH.
Qed.

Lemma success_body (o : Obj) :
  lookup o "error" = None -> success_or_error (json o).
Proof. intros H. left. split; [reflexivity |]. exists o. auto. Qed.

Lemma error_body (n : Z) (message : string) :
  n = 400 \/ n = 401 \/ n = 500 ->
  success_or_error (status_json n [("error", JStr message)]).
Proof. intros H. right. split; [exact H |]. exists message. reflexivity. Qed.

Lemma handle_answers (r : Request) (s : Store) :
  answers success_or_error (handle r s).
Proof.
  destruct r; cbn [handle].
  - apply answers_respond, success_body. reflexivity.
  - unfold post_connect.
    destruct (negb _ || negb _ || negb _);
      [apply answers_respond, error_body; auto |].
    destruct (get req_body "privateKey");
      try (apply answers_respond, error_body; auto).
    apply answers_await. intros [datasets | message] s';
      apply answers_respond;
      [apply success_body; reflexivity | apply error_body; auto].
  - apply answers_respond, success_body. reflexivity.
  - unfold get_datasets. destruct (bigQueryClient s);
      [| apply answers_respond, error_body; auto].
    apply answers_await. intros [datasets | message] s';
      apply answers_respond;
      [apply success_body; reflexivity | apply error_body; auto].
  - unfold get_tables. destruct (bigQueryClient s);
      [| apply answers_respond, error_body; auto].
    apply answers_await. intros [tables | message] s';
      apply answers_respond;
      [apply success_body; reflexivity | apply error_body; auto].
  - unfold get_data. destruct (bigQueryClient s);
      [| apply answers_respond, error_body; auto].
    apply answers_await. intros [meta | message] s';
      [| apply answers_respond, error_body; auto].
    destruct (bigQueryCredentials s');
      [| apply answers_respond, error_body; auto].
    destruct (bigQueryClient s');
      [| apply answers_respond, error_body; auto].
    apply answers_await. intros [rows | message] s'';
      apply answers_respond;
      [apply success_body; reflexivity | apply error_body; auto].
  - unfold post_query. destruct (bigQueryClient s);
      [| apply answers_respond, error_body; auto].
    destruct (negb _); [apply answers_respond, error_body; auto |].
    apply answers_await. intros [rows | message] s';
      apply answers_respond;
      [apply success_body; reflexivity | apply error_body; auto].
Qed.

Lemma Forall_remove_nth {A} (P : A -> Prop) (i : nat) (l : list A) :
  Forall P l -> Forall P (remove_nth i l).
Proof.
  intros H. revert i. induction H as [| x l Hx Hl IH]; intros i.
  - destruct i; constructor.
  - destruct i; cbn [remove_nth]; [exact Hl |].
    constructor; [exact Hx | apply IH].
Qed.

Lemma Forall_nth_error {A} (P : A -> Prop) (i : nat) (l : list A) (x : A) :
  Forall P l -> nth_error l i = Some x -> P x.
Proof.
  intros H Hi. apply nth_error_In in Hi.
  exact (proj1 (Forall_forall P l) H x Hi).
Qed.

Lemma settle_in_answers (P : Response -> Prop) (others : list Suspended)
    (h : Handler) :
  Forall (fun p => forall o s, answers P (continuation p o s)) others ->
  answers P h ->
  suspended_all (fun _ => answers P) (fst (settle_in others h))
  /\ Forall P (snd (settle_in others h)).
Proof.
  intros Hothers Hh. destruct Hh as [r s Hr | A c s k Hk]; cbn.
  - split; [exact Hothers | constructor; [exact Hr | constructor]].
  - split; [| constructor].
    apply Forall_app. split; [exact Hothers |].
    constructor; [exact Hk | constructor].
Qed.

Lemma step_answers (P : Response -> Prop) (sv : Server) (e : Event) :
  (forall r s, answers P (handle r s)) ->
  suspended_all (fun _ => answers P) sv ->
  suspended_all (fun _ => answers P) (fst (step sv e))
  /\ Forall P (snd (step sv e)).
Proof.
  intros Hhandle Hsv. destruct e as [r | i oracle]; cbn [step].
  - apply settle_in_answers; [exact Hsv | apply Hhandle].
  - destruct (nth_error (suspended sv) i) as [p |] eqn:Hp.
    + apply settle_in_answers.
      * apply Forall_remove_nth. exact Hsv.
      * exact (Forall_nth_error _ _ _ _ Hsv Hp _ _).
    + split; [exact Hsv | constructor].
Qed.

Lemma steps_answers (P : Response -> Prop) (es : list Event) (sv : Server) :
  (forall r s, answers P (handle r s)) ->
  suspended_all (fun _ => answers P) sv ->
  Forall P (snd (steps sv es)).
Proof.
  intros Hhandle. revert sv.
  induction es as [| e rest IH]; intros sv Hsv; cbn [steps];
    [constructor |].
  destruct (step_answers P sv e Hhandle Hsv) as [Hnext Hout].
  destruct (step sv e) as [sv1 out1]. cbn [fst snd] in *.
  specialize (IH sv1 Hnext).
  destruct (steps sv1 rest) as [sv2 out2]. cbn [snd] in *.
  apply Forall_app. split; assumption.
Qed.

(** X13: every response of every handler is either a 200 whose body has
    no [error] field, or a 400, 401 or 500 whose body is exactly
    [{ error: <text> }]: for a request served on its own from any store,
    and for every response the server sends however requests and SDK
    answers interleave. *)
Theorem responses_succeed_or_report (events : list Event) :
  (forall oracle r s,
     success_or_error (response_of (run oracle (handle r s))))
  /\ Forall success_or_error (snd (steps boot events)).
Proof.
  split.
  - intros oracle r s. apply answers_run, handle_answers.
  - apply steps_answers; [exact handle_answers | constructor].
Qed.

(** ** Who assigns the client *)

Lemma keeps_client_null_refl (s : Store) : keeps_client_null s s.
Proof. intros H. exact H. Qed.

(** After its first await no handler assigns a client: the rest of a
    connect stores credentials or clears both variables, the others only
    read. *)
Lemma handle_resumes (r : Request) (s : Store) :
  resumes keeps_client_null (handle r s).
Proof.
  destruct r; cbn [handle]; try exact I.
  - unfold post_connect.
    destruct (negb _ || negb _ || negb _); [exact I |].
    destruct (get req_body "privateKey"); try exact I.
    intros [datasets | message] s'; apply writes_respond;
      [exact (fun H => H) | intros _; reflexivity].
  - unfold get_datasets. destruct (bigQueryClient s); [| exact I].
    intros [datasets | message] s'; apply writes_respond;
      apply keeps_client_null_refl.
  - unfold get_tables. destruct (bigQueryClient s); [| exact I].
    intros [tables | message] s'; apply writes_respond;
      apply keeps_client_null_refl.
  - unfold get_data. destruct (bigQueryClient s); [| exact I].
    intros [meta | message] s';
      [| apply writes_respond, keeps_client_null_refl].
    destruct (bigQueryCredentials s');
      [| apply writes_respond, keeps_client_null_refl].
    destruct (bigQueryClient s');
      [| apply writes_respond, keeps_client_null_refl].
    apply writes_await; [apply keeps_client_null_refl |].
    intros [rows | message] s''; apply writes_respond;
      apply keeps_client_null_refl.
  - unfold post_query. destruct (bigQueryClient s); [| exact I].
    destruct (negb _); [exact I |].
    intros [rows | message] s'; apply writes_respond;
      apply keeps_client_null_refl.
Qed.

(** Up to its first await only the connect handler assigns a client. *)
Lemma handle_writes (r : Request) (s : Store) :
  is_connect_arrival (Arrive r) = false ->
  writes keeps_client_null s (handle r s).
Proof.
  intros Hr. pose proof (handle_resumes r s) as Hres.
  destruct r; try discriminate Hr; cbn [handle] in *.
  - apply writes_respond, keeps_client_null_refl.
  - apply writes_respond. intros _. reflexivity.
  - unfold get_datasets in *. destruct (bigQueryClient s);
      [apply writes_await; [apply keeps_client_null_refl | exact Hres]
      | apply writes_respond, keeps_client_null_refl].
  - unfold get_tables in *. destruct (bigQueryClient s);
      [apply writes_await; [apply keeps_client_null_refl | exact Hres]
      | apply writes_respond, keeps_client_null_refl].
  - unfold get_data in *. destruct (bigQueryClient s);
      [apply writes_await; [apply keeps_client_null_refl | exact Hres]
      | apply writes_respond, keeps_client_null_refl].
  - unfold post_query in *. destruct (bigQueryClient s);
      [| apply writes_respond, keeps_client_null_refl].
    destruct (negb _);
      [apply writes_respond, keeps_client_null_refl
      | apply writes_await; [apply keeps_client_null_refl | exact Hres]].
Qed.

Lemma settle_in_resumes (others : list Suspended) (h : Handler) :
  Forall (fun p => forall o s,
            writes keeps_client_null s (continuation p o s)) others ->
  resumes keeps_client_null h ->
  suspended_all (writes keeps_client_null) (fst (settle_in others h)).
Proof.
  intros Hothers Hh. destruct h as [r s | A c s k]; cbn; [exact Hothers |].
  apply Forall_app. split; [exact Hothers |].
  constructor; [exact Hh | constructor].
Qed.

Lemma writes_resumes (R : Store -> Store -> Prop) (s : Store) (h : Handler) :
  writes R s h -> resumes R h.
Proof. destruct 1; [exact I | assumption]. Qed.

Lemma settle_in_store (others : list Suspended) (s : Store) (h : Handler) :
  writes keeps_client_null s h ->
  bigQueryClient s = None ->
  bigQueryClient (store (fst (settle_in others h))) = None.
Proof. destruct 1 as [r s' HR | A c s' k HR _]; cbn; exact HR. Qed.

(** Every event keeps the suspended handlers unable to assign a client. *)
Lemma step_suspended (sv : Server) (e : Event) :
  suspended_all (writes keeps_client_null) sv ->
  suspended_all (writes keeps_client_null) (fst (step sv e)).
Proof.
  intros Hsv. destruct e as [r | i oracle]; cbn [step].
  - apply settle_in_resumes; [exact Hsv | apply handle_resumes].
  - destruct (nth_error (suspended sv) i) as [p |] eqn:Hp; [| exact Hsv].
    apply settle_in_resumes; [apply Forall_remove_nth; exact Hsv |].
    apply (writes_resumes _ (store sv)).
    exact (Forall_nth_error _ _ _ _ Hsv Hp _ _).
Qed.

(** An event other than the arrival of a connect leaves a [null] client
    [null]. *)
Lemma step_client_null (sv : Server) (e : Event) :
  suspended_all (writes keeps_client_null) sv ->
  is_connect_arrival e = false ->
  bigQueryClient (store sv) = None ->
  bigQueryClient (store (fst (step sv e))) = None.
Proof.
  intros Hsv He Hnull. destruct e as [r | i oracle]; cbn [step].
  - apply (settle_in_store _ (store sv)); [| exact Hnull].
    apply handle_writes. exact He.
  - destruct (nth_error (suspended sv) i) as [p |] eqn:Hp; [| exact Hnull].
    apply (settle_in_store _ (store sv)); [| exact Hnull].
    exact (Forall_nth_error _ _ _ _ Hsv Hp _ _).
Qed.

Lemma steps_suspended (es : list Event) (sv : Server) :
  suspended_all (writes keeps_client_null) sv ->
  suspended_all (writes keeps_client_null) (fst (steps sv es)).
Proof.
  revert sv. induction es as [| e rest IH]; intros sv Hsv; cbn [steps];
    [exact Hsv |].
  pose proof (step_suspended sv e Hsv) as Hnext.
  destruct (step sv e) as [sv1 out1]. cbn [fst] in Hnext.
  specialize (IH sv1 Hnext).
  destruct (steps sv1 rest) as [sv2 out2]. exact IH.
Qed.

Lemma steps_client_null (es : list Event) (sv : Server) :
  suspended_all (writes keeps_client_null) sv ->
  forallb (fun e => negb (is_connect_arrival e)) es = true ->
  bigQueryClient (store sv) = None ->
  bigQueryClient (store (fst (steps sv es))) = None.
Proof.
  revert sv. induction es as [| e rest IH]; intros sv Hsv Hes Hnull;
    cbn [steps]; [exact Hnull |].
  cbn [forallb] in Hes. apply andb_true_iff in Hes.
  destruct Hes as [He Hrest]. apply negb_true_iff in He.
  pose proof (step_suspended sv e Hsv) as Hnext.
  pose proof (step_client_null sv e Hsv He Hnull) as Hnull'.
  destruct (step sv e) as [sv1 out1]. cbn [fst] in *.
  specialize (IH sv1 Hnext Hrest Hnull').
  destruct (steps sv1 rest) as [sv2 out2]. exact IH.
Qed.

Lemma steps_app (sv : Server) (es1 es2 : list Event) :
  fst (steps sv (es1 ++ es2)) = fst (steps (fst (steps sv es1)) es2).
Proof.
  revert sv. induction es1 as [| e rest IH]; intros sv; [reflexivity |].
  cbn [List.app steps]. destruct (step sv e) as [sv1 out1].
  specialize (IH sv1).
  destruct (steps sv1 (rest ++ es2)) as [sv2 out2].
  destruct (steps sv1 rest) as [sv3 out3]. exact IH.
Qed.

(** X14: however requests and SDK answers interleave, once a disconnect
    has been served the client variable stays [null] until another connect
    request arrives, even if connects that were waiting for their
    verification then complete with success; until then every request that
    needs a connection is refused with 401 on arrival, with no SDK call and
    no change to the server. *)
Theorem disconnected_until_next_connect
    (before after : list Event) (r : Request) :
  forallb (fun e => negb (is_connect_arrival e)) after = true ->
  requires_connection r = true ->
  let sv := fst (steps boot (before ++ Arrive POST_disconnect :: after)) in
  bigQueryClient (store sv) = None
  /\ step sv (Arrive r) = (sv, [not_connected]).
Proof.
  intros Hafter Hr sv.
  assert (Hnull : bigQueryClient (store sv) = None).
  { subst sv. rewrite steps_app.
    change (Arrive POST_disconnect :: after)
      with ([Arrive POST_disconnect] ++ after)%list.
    rewrite steps_app.
    apply steps_client_null.
    - apply steps_suspended, steps_suspended. constructor.
    - exact Hafter.
    - reflexivity. }
  split; [exact Hnull |].
  cbn [step].
  destruct (no_client_not_connected _ Hnull) as (Hd & Ht & Hp & Hq).
  destruct r; try discriminate Hr; cbn [handle];
    rewrite ?Hd, ?Ht, ?Hp, ?Hq; cbn [settle_in];
    destruct sv; reflexivity.
Qed.

Lemma disconnected_until_next_connect_witness :
  step (fst (steps boot [Arrive (POST_connect proj1_body);
                         Arrive POST_disconnect;
                         Settle 0 (resolve_all [] [] [] [])]))
       (Arrive GET_datasets)
  = (fst (steps boot [Arrive (POST_connect proj1_body);
                      Arrive POST_disconnect;
                      Settle 0 (resolve_all [] [] [] [])]),
     [not_connected]).
Proof.
  apply (proj2 (disconnected_until_next_connect
                  [Arrive (POST_connect proj1_body)]
                  [Settle 0 (resolve_all [] [] [] [])]
                  GET_datasets eq_refl eq_refl)).
Defined.

(** ** Handlers that only read *)

(** X15: the status, listing, page and query handlers never assign either
    store variable: each of their stretches leaves the store it started
    on, also when it is resumed on a store other handlers have changed in
    the meantime; served on their own they return the store they found. *)
Theorem readers_never_write (r : Request) (s : Store) :
  reads_only r = true ->
  writes eq s (handle r s)
  /\ forall oracle, serve oracle r s = s.
Proof.
  intros Hr. split.
  - destruct r; try discriminate Hr; cbn [handle].
    + apply writes_respond. reflexivity.
    + unfold get_datasets. destruct (bigQueryClient s);
        [| apply writes_respond; reflexivity].
      apply writes_await; [reflexivity |].
      intros [datasets | message] s'; apply writes_respond; reflexivity.
    + unfold get_tables. destruct (bigQueryClient s);
        [| apply writes_respond; reflexivity].
      apply writes_await; [reflexivity |].
      intros [tables | message] s'; apply writes_respond; reflexivity.
    + unfold get_data. destruct (bigQueryClient s);
        [| apply writes_respond; reflexivity].
      apply writes_await; [reflexivity |].
      intros [meta | message] s'; [| apply writes_respond; reflexivity].
      destruct (bigQueryCredentials s');
        [| apply writes_respond; reflexivity].
      destruct (bigQueryClient s'); [| apply writes_respond; reflexivity].
      apply writes_await; [reflexivity |].
      intros [rows | message] s''; apply writes_respond; reflexivity.
    + unfold post_query. destruct (bigQueryClient s);
        [| apply writes_respond; reflexivity].
      destruct (negb _); [apply writes_respond; reflexivity |].
      apply writes_await; [reflexivity |].
      intros [rows | message] s'; apply writes_respond; reflexivity.
  - intros oracle. pose proof (readers_keep_store oracle r s) as Hkeep.
    destruct r; try discriminate Hr; exact Hkeep.
Qed.

Lemma readers_never_write_witness :
  serve (resolve_all [] [] [] [[("n", JNum (Int 1))]])
        (POST_query [("query", JStr "SELECT 1 AS n")]) proj1_connected
  = proj1_connected.
Proof.
  apply (proj2 (readers_never_write
                  (POST_query [("query", JStr "SELECT 1 AS n")])
                  proj1_connected eq_refl)).
Defined.

(** ** A connect replaces the session *)

(** X16: unless it is refused with 400, a connect served on its own gives
    a response and a store that do not depend on what the store held
    before: the previous session is replaced or dropped as a whole. *)
Theorem connect_forgets_previous_session
    (b : Obj) (s1 s2 : Store) (oracle : Oracle) :
  status (response_of (run oracle (handle (POST_connect b) s1))) <> 400 ->
  response_of (run oracle (handle (POST_connect b) s1))
  = response_of (run oracle (handle (POST_connect b) s2))
  /\ serve oracle (POST_connect b) s1 = serve oracle (POST_connect b) s2.
Proof.
  unfold serve. cbn [handle]. unfold post_connect.
  destruct (negb _ || negb _ || negb _);
    [intros H; exfalso; apply H; reflexivity |].
  intros _.
  destruct (get b "privateKey"); split; reflexivity.
Qed.

Lemma connect_forgets_previous_session_witness :
  serve (resolve_all [] [] [] []) (POST_connect proj1_body) initial
  = serve (resolve_all [] [] [] []) (POST_connect proj1_body) proj1_connected.
Proof.
  apply (proj2 (connect_forgets_previous_session
                  proj1_body initial proj1_connected
                  (resolve_all [] [] [] []) ltac:(discriminate))).
Defined.

(** ** Repeated and nested query parameters *)



